(** * The query interpreter and the sheet loader of [app.py]

    A shallow embedding of [extract_info] and [get_google_sheet].

    Python strings are modelled by [string]: one [ascii] for a character
    of ASCII, and the bytes of its UTF-8 encoding for a character outside
    ASCII.  A table is a finite map from
    column labels to columns, a column a list of cells, and a cell, as a
    sheet delivers it, either a string or the missing value ([None],
    pandas' NA).  Exceptions are values of an error monad;
    [try ... except Exception as e] is [try_except].  The floating-point
    column operations of pandas, the spaCy pipeline and the Sheets client
    are the libraries the code calls into: they appear as interfaces, the
    first with a binary64 reference instance on which the code is
    evaluated on concrete tables. *)

From Stdlib Require Import ZArith List Ascii String Decimal DecimalString SpecFloat Lia.
From stdpp Require Import base option list gmap strings.

Open Scope string_scope.

(** ** Python built-ins *)

Module Py.

(** [Exception] values with the text of [str(e)] that an f-string
    inserts. *)
Inductive Exception : Type :=
| KeyError (key : string)
| ValueError (msg : string)
| OSError (msg : string).

Inductive result (A : Type) : Type :=
| Ok (a : A)
| Raise (e : Exception).
Arguments Ok {A} a.
Arguments Raise {A} e.

Definition bind {A B : Type} (r : result A) (k : A -> result B) : result B :=
  match r with
  | Ok a => k a
  | Raise e => Raise e
  end.

(** [str.lower]: the letters A to Z are lowered and every other byte is
    kept.  Keeping the bytes of a character outside ASCII is [str.lower]
    itself when the character is its own lower-case form, as the dotless
    i (U+0131) and the long s (U+017F) are.  For the other characters it
    leaves the keyword tests of lines 47 to 70 as they are: the keywords
    are ASCII, and the only characters outside ASCII with an ASCII letter
    in their lower-case form are the Kelvin sign (k) and the dotted
    capital I (i followed by a combining dot), while no keyword holds a k
    or ends in i. *)
Definition lower_char (c : ascii) : ascii :=
  let n := N_of_ascii c in
  if ((65 <=? n) && (n <=? 90))%N then ascii_of_N (n + 32) else c.

Fixpoint lower (s : string) : string :=
  match s with
  | EmptyString => EmptyString
  | String c t => String (lower_char c) (lower t)
  end.

Definition upper_char (c : ascii) : ascii :=
  let n := N_of_ascii c in
  if ((97 <=? n) && (n <=? 122))%N then ascii_of_N (n - 32) else c.

(** [str.upper] on a text of ASCII characters, dotless i (bytes 196 177,
    upper case I) and long s (bytes 197 191, upper case S); [None] on a
    text with another character. *)
Fixpoint upper (s : string) : option string :=
  match s with
  | EmptyString => Some EmptyString
  | String c t =>
      if (N_of_ascii c <? 128)%N then String (upper_char c) <$> upper t
      else
        match t with
        | EmptyString => None
        | String d u =>
            if Ascii.eqb c "196" && Ascii.eqb d "177" then String "I"%char <$> upper u
            else if Ascii.eqb c "197" && Ascii.eqb d "191" then String "S"%char <$> upper u
            else None
        end
  end.

Fixpoint startswith (sub s : string) : bool :=
  match sub, s with
  | EmptyString, _ => true
  | String _ _, EmptyString => false
  | String a sub', String b s' => if Ascii.eqb a b then startswith sub' s' else false
  end.

(** [sub in s] for two strings: raw substring containment. *)
Fixpoint contains (sub s : string) : bool :=
  startswith sub s ||
  match s with
  | EmptyString => false
  | String _ t => contains sub t
  end.

Fixpoint mem_char (c : ascii) (s : string) : bool :=
  match s with
  | EmptyString => false
  | String d t => Ascii.eqb c d || mem_char c t
  end.

Definition hex_digit (n : N) : ascii :=
  if (n <? 10)%N then ascii_of_N (48 + n) else ascii_of_N (87 + n).

(** One character of [repr(s)] with [q] the chosen quote. *)
Definition repr_char (q c : ascii) : string :=
  let n := N_of_ascii c in
  if Ascii.eqb c q || Ascii.eqb c "\"%char then String "\"%char (String c EmptyString)
  else if (n =? 9)%N then "\t"
  else if (n =? 10)%N then "\n"
  else if (n =? 13)%N then "\r"
  else if ((n <? 32) || (n =? 127))%N
       then String "\"%char (String "x"%char
              (String (hex_digit (n / 16)) (String (hex_digit (n mod 16)) EmptyString)))
  else String c EmptyString.

Fixpoint repr_body (q : ascii) (s : string) : string :=
  match s with
  | EmptyString => EmptyString
  | String c t => repr_char q c ++ repr_body q t
  end.

(** [repr] of a [str]: single quotes, unless the text has a single quote
    and no double quote. *)
Definition repr (s : string) : string :=
  let q := if mem_char "'"%char s && negb (mem_char "034"%char s)
           then "034"%char else "'"%char in
  String q (repr_body q s ++ String q EmptyString).

(** [str(e)]. *)
Definition str_of_exception (e : Exception) : string :=
  match e with
  | KeyError key => repr key
  | ValueError msg => msg
  | OSError msg => msg
  end.

(** [str(n)] for a non-negative [int]. *)
Definition str_of_nat (n : nat) : string :=
  NilZero.string_of_uint (Nat.to_uint n).

End Py.
Import Py.

#[global] Instance result_ret : MRet result := @Ok.
#[global] Instance result_bind : MBind result := fun A B k r => Py.bind r k.

(** [try: body except Exception as e: return handler(e)], for a body whose
    normal exits are all [return]s. *)
Definition try_except {A : Type} (body : result A) (handler : Exception -> A) : A :=
  match body with
  | Ok a => a
  | Raise e => handler e
  end.

(** The handler of [extract_info]: [return f"Error: {e}"]. *)
Definition handler (e : Exception) : string := "Error: " ++ str_of_exception e.

(** ** pandas: columns and tables *)

(** A cell read from a sheet or an object column: a string, or [None]. *)
Definition cell : Type := option string.
Definition Series : Type := list cell.
Abbreviation DataFrame := (gmap string Series).

(** The float64 side of pandas and Python: the conversion [float(s)], the
    NaN-skipping reductions of a float64 column and [str] of their
    result.  [nanvar] and [nanstd] take [ddof]. *)
Class Float64 : Type := {
  float64 : Type;
  float_of_str : string -> option float64;
  NaN : float64;
  nanmin : list float64 -> float64;
  nanmax : list float64 -> float64;
  nanmean : list float64 -> float64;
  nansum : list float64 -> float64;
  nanmedian : list float64 -> float64;
  nanstd : nat -> list float64 -> float64;
  nanvar : nat -> list float64 -> float64;
  str_of_float : float64 -> string
}.

(** ** spaCy *)

Module spacy.
(** A parsed document; the interpreter never looks inside it. *)
Definition Doc : Type := unit.
(** A loaded pipeline, called on a text. *)
Definition Language : Type := string -> result Doc.
(** The installed package: [spacy.load(name)]. *)
Record module : Type := { load : string -> result Language }.

(** [nlp.max_length]: a longer text is refused with error E088. *)
Definition max_length : N := 1000000.

Definition E088 (len : N) : string :=
  "[E088] Text of length " ++ NilZero.string_of_uint (N.to_uint len)
    ++ " exceeds maximum of 1000000. The parser and NER models require roughly 1GB of temporary memory per 100,000 characters in the input. This means long texts may cause memory allocation errors. If you're not using the parser or NER, it's probably safe to increase the `nlp.max_length` limit. The limit is in number of characters, so you can check whether your inputs are too long by checking `len(text)`.".

Definition E050 (name : string) : string :=
  "[E050] Can't find model '" ++ name
    ++ "'. It doesn't seem to be a Python package or a valid path to a data directory.".

(** The pipeline [en_core_web_sm] as a callable: a text is refused by its
    length, [len(text)], which is the length of the [string] for a text of
    ASCII. *)
Definition en_core_web_sm : Language :=
  fun text =>
    let n := N.of_nat (String.length text) in
    if (max_length <? n)%N then Raise (ValueError (E088 n)) else Ok tt.

(** An installation with the model package, and one without it. *)
Definition installed : module :=
  {| load := fun name =>
       if String.eqb name "en_core_web_sm" then Ok en_core_web_sm
       else Raise (OSError (E050 name)) |}.
Definition missing : module :=
  {| load := fun name => Raise (OSError (E050 name)) |}.
End spacy.

Section Interpreter.
Context {F : Float64}.

(** [df[column]]: a [KeyError] carrying the label when it is absent. *)
Definition getitem (df : DataFrame) (column : string) : result Series :=
  match df !! column with
  | Some s => Ok s
  | None => Raise (KeyError column)
  end.

Definition cell_to_float (c : cell) : result float64 :=
  match c with
  | None => Ok NaN
  | Some s =>
      match float_of_str s with
      | Some x => Ok x
      | None => Raise (ValueError ("could not convert string to float: " ++ repr s))
      end
  end.

(** [s.astype(float)]: cell by cell, the first failure is raised. *)
Fixpoint astype_float (s : Series) : result (list float64) :=
  match s with
  | [] => Ok []
  | c :: t => x ← cell_to_float c; xs ← astype_float t; Ok (x :: xs)
  end.

(** [s.count()]: the cells that are not NA. *)
Definition count (s : Series) : nat := List.length (filter is_Some s).

Definition unsupported : string :=
  "Query not supported. Please rephrase your query to include 'minimum', 'maximum', 'average', 'sum', 'count', 'median', 'standard deviation', or 'variance'.".

(** Lines 46 to 72: the cascade over the lower-cased prompt. *)
Definition answer (df : DataFrame) (column prompt : string) : result string :=
  let prompt := lower prompt in
  if contains "minimum" prompt || contains "lowest" prompt then
    s ← getitem df column; xs ← astype_float s;
    let result := nanmin xs in
    Ok ("The minimum value in column '" ++ column ++ "' is " ++ str_of_float result ++ ".")
  else if contains "maximum" prompt || contains "highest" prompt then
    s ← getitem df column; xs ← astype_float s;
    let result := nanmax xs in
    Ok ("The maximum value in column '" ++ column ++ "' is " ++ str_of_float result ++ ".")
  else if contains "average" prompt || contains "mean" prompt then
    s ← getitem df column; xs ← astype_float s;
    let result := nanmean xs in
    Ok ("The average value in column '" ++ column ++ "' is " ++ str_of_float result ++ ".")
  else if contains "sum" prompt || contains "total" prompt then
    s ← getitem df column; xs ← astype_float s;
    let result := nansum xs in
    Ok ("The sum of values in column '" ++ column ++ "' is " ++ str_of_float result ++ ".")
  else if contains "count" prompt || contains "number of" prompt then
    s ← getitem df column;
    let result := count s in
    Ok ("The count of values in column '" ++ column ++ "' is " ++ str_of_nat result ++ ".")
  else if contains "median" prompt then
    s ← getitem df column; xs ← astype_float s;
    let result := nanmedian xs in
    Ok ("The median value in column '" ++ column ++ "' is " ++ str_of_float result ++ ".")
  else if contains "standard deviation" prompt || contains "std dev" prompt then
    s ← getitem df column; xs ← astype_float s;
    let result := nanstd 1 xs in
    Ok ("The standard deviation of values in column '" ++ column ++ "' is "
          ++ str_of_float result ++ ".")
  else if contains "variance" prompt then
    s ← getitem df column; xs ← astype_float s;
    let result := nanvar 1 xs in
    Ok ("The variance of values in column '" ++ column ++ "' is " ++ str_of_float result ++ ".")
  else
    Ok unsupported.

(** Lines 44 and 45: load the pipeline and parse the prompt as given. *)
Definition parse (sp : spacy.module) (prompt : string) : result spacy.Doc :=
  nlp ← spacy.load sp "en_core_web_sm"; nlp prompt.

Definition extract_info (sp : spacy.module)
    (df : DataFrame) (column prompt : string) : string :=
  try_except
    (doc ← parse sp prompt; answer df column prompt)
    handler.

(** [extract_info] with lines 44 and 45 removed. *)
Definition extract_info_without_parse
    (df : DataFrame) (column prompt : string) : string :=
  try_except
    (answer df column prompt)
    handler.

End Interpreter.

(** ** The binary64 reference instance

    IEEE 754 double precision on [spec_float]: [float(s)] as CPython
    parses it (correctly rounded), the reductions of a float64 column with
    NaN skipped, and the shortest text that reads back as the same double,
    laid out as [repr] does.  Sums are accumulated left to right, the way
    numpy adds fewer than eight numbers; it adds longer columns pairwise,
    which may round the last digits differently.  Between 0.0 and -0.0,
    which compare equal, [min] and [max] keep the earlier cell and
    [median] returns the middle cell as it is, where numpy may return the
    zero of the other sign.  The instance is used on columns of fewer than
    eight cells without a negative zero. *)

Module Binary64.

Definition prec : Z := 53.
Definition emax : Z := 1024.

Definition add : spec_float -> spec_float -> spec_float := SFadd prec emax.
Definition sub : spec_float -> spec_float -> spec_float := SFsub prec emax.
Definition mul : spec_float -> spec_float -> spec_float := SFmul prec emax.
Definition div : spec_float -> spec_float -> spec_float := SFdiv prec emax.
Definition sqrt : spec_float -> spec_float := SFsqrt prec emax.

Definition eqb (x y : spec_float) : bool :=
  match x, y with
  | S754_zero a, S754_zero b => Bool.eqb a b
  | S754_infinity a, S754_infinity b => Bool.eqb a b
  | S754_nan, S754_nan => true
  | S754_finite a m e, S754_finite b n f => Bool.eqb a b && Pos.eqb m n && Z.eqb e f
  | _, _ => false
  end.

(** The double nearest to [(-1)^neg * n / d], ties to even. *)
Definition of_ratio (neg : bool) (n : N) (d : positive) : spec_float :=
  match n with
  | N0 => S754_zero neg
  | Npos p =>
      let k := Z.max 0 (64 + Z.log2 (Zpos d) - Z.log2 (Zpos p)) in
      let (q, r) := Z.div_eucl (Zpos p * 2 ^ k) (Zpos d) in
      let l := if (r =? 0)%Z then loc_Exact
               else loc_Inexact (Z.compare (2 * r) (Zpos d)) in
      binary_round_aux prec emax neg q (- k) l
  end.

(** [(-1)^neg * m * 10^e] as a double. *)
Definition of_decimal (neg : bool) (m : N) (e : Z) : spec_float :=
  if (0 <=? e)%Z then of_ratio neg (m * N.pow 10 (Z.to_N e)) 1
  else of_ratio neg m (Pos.pow 10 (Z.to_pos (- e))).

Definition of_nat (n : nat) : spec_float := of_ratio false (N.of_nat n) 1.

(** *** [float(s)] *)

Definition is_space (c : ascii) : bool :=
  let n := N_of_ascii c in
  (((9 <=? n) && (n <=? 13)) || (n =? 32))%N.

Fixpoint lstrip (s : string) : string :=
  match s with
  | String c t => if is_space c then lstrip t else s
  | EmptyString => EmptyString
  end.

Fixpoint rstrip (s : string) : string :=
  match s with
  | String c t =>
      match rstrip t with
      | EmptyString => if is_space c then EmptyString else String c EmptyString
      | t' => String c t'
      end
  | EmptyString => EmptyString
  end.

Definition digit_of (c : ascii) : option N :=
  let n := N_of_ascii c in
  if ((48 <=? n) && (n <=? 57))%N then Some (n - 48)%N else None.

Definition is_digit (c : ascii) : bool :=
  match digit_of c with Some _ => true | None => false end.

(** An underscore is allowed between two digits only; the accepted ones
    are dropped. *)
Fixpoint drop_underscores (after_digit : bool) (s : string) : option string :=
  match s with
  | EmptyString => Some EmptyString
  | String c t =>
      if Ascii.eqb c "_"%char then
        match t with
        | String d _ =>
            if after_digit && is_digit d then drop_underscores false t else None
        | EmptyString => None
        end
      else
        match drop_underscores (is_digit c) t with
        | Some t' => Some (String c t')
        | None => None
        end
  end.

Fixpoint read_digits (acc : N) (cnt : nat) (s : string) : N * nat * string :=
  match s with
  | String c t =>
      match digit_of c with
      | Some d => read_digits (10 * acc + d)%N (S cnt) t
      | None => (acc, cnt, s)
      end
  | EmptyString => (acc, cnt, s)
  end.

Definition read_sign (s : string) : bool * string :=
  match s with
  | String c t =>
      if Ascii.eqb c "-"%char then (true, t)
      else if Ascii.eqb c "+"%char then (false, t)
      else (false, s)
  | EmptyString => (false, s)
  end.

(** The exponent part, up to the end of the text. *)
Definition read_exponent (s : string) : option Z :=
  match s with
  | EmptyString => Some 0%Z
  | String c t =>
      if Ascii.eqb (lower_char c) "e"%char then
        let (neg, t1) := read_sign t in
        match read_digits 0 0 t1 with
        | (_, O, _) => None
        | (e, S _, EmptyString) => Some (if neg then - Z.of_N e else Z.of_N e)%Z
        | _ => None
        end
      else None
  end.

Definition parse_number (neg : bool) (s : string) : option spec_float :=
  let '(ip, ni, s1) := read_digits 0 0 s in
  let '(m, nf, s2) :=
    match s1 with
    | String c t => if Ascii.eqb c "."%char then read_digits ip 0 t else (ip, O, s1)
    | EmptyString => (ip, O, s1)
    end in
  match (ni + nf)%nat with
  | O => None
  | S _ =>
      match read_exponent s2 with
      | Some e => Some (of_decimal neg m (e - Z.of_nat nf))
      | None => None
      end
  end.

Definition of_str (s : string) : option spec_float :=
  match drop_underscores false (rstrip (lstrip s)) with
  | None => None
  | Some s' =>
      let (neg, r) := read_sign s' in
      let l := lower r in
      if String.eqb l "inf" || String.eqb l "infinity" then Some (S754_infinity neg)
      else if String.eqb l "nan" then Some S754_nan
      else parse_number neg r
  end.

(** *** [repr] of a double *)

Definition ndigits10 (n : Z) : Z :=
  Z.of_nat (Decimal.nb_digits (N.to_uint (Z.to_N n))).

(** [n / (d * 10^k)] as a quotient of two integers. *)
Definition scale10 (n d k : Z) : Z * Z :=
  if (0 <=? k)%Z then (n, d * 10 ^ k)%Z else (n * 10 ^ (- k), d)%Z.

(** The floor of the decimal logarithm of [n / d], for positive [n], [d]. *)
Definition ilog10 (n d : Z) : Z :=
  let t := (ndigits10 n - ndigits10 d)%Z in
  let (a, b) := scale10 n d t in
  if (b <=? a)%Z then t else (t - 1)%Z.

(** The decimals [c * 10^k] with [p] significant digits next to
    [v = n / d]; the one that reads back as [x], the nearer to [v] when
    both do. *)
Definition candidate (x : spec_float) (neg : bool) (n d t p : Z) : option (Z * Z) :=
  let k := (t - p + 1)%Z in
  let (a, b) := scale10 n d k in
  let c := (a / b)%Z in
  let r := (a mod b)%Z in
  let lo := eqb (of_decimal neg (Z.to_N c) k) x in
  let hi := eqb (of_decimal neg (Z.to_N (c + 1)) k) x in
  let up := match (2 * r ?= b)%Z with
            | Lt => false
            | Eq => Z.odd c
            | Gt => true
            end in
  if lo && hi then Some (if up then c + 1 else c, k)%Z
  else if lo then Some (c, k)
  else if hi then Some (c + 1, k)%Z
  else None.

Fixpoint shortest (fuel : nat) (x : spec_float) (neg : bool) (n d t p : Z) : Z * Z :=
  match candidate x neg n d t p, fuel with
  | Some ck, _ => ck
  | None, S fuel' => shortest fuel' x neg n d t (p + 1)
  | None, O =>
      let (a, b) := scale10 n d (t - p + 1) in
      (if (b <=? 2 * (a mod b))%Z then a / b + 1 else a / b, t - p + 1)%Z
  end.

Fixpoint rstrip_zeros (s : string) : string :=
  match s with
  | String c t =>
      match rstrip_zeros t with
      | EmptyString => if Ascii.eqb c "0"%char then EmptyString else String c EmptyString
      | t' => String c t'
      end
  | EmptyString => EmptyString
  end.

Fixpoint zeros (n : nat) : string :=
  match n with
  | O => EmptyString
  | S n' => String "0"%char (zeros n')
  end.

Definition str_of_Z (z : Z) : string :=
  NilZero.string_of_uint (N.to_uint (Z.to_N z)).

(** The layout of [repr]: digits [ds] with the decimal point after the
    first [decpt] of them; exponent form when [decpt <= -4] or
    [decpt > 16]. *)
Definition layout (ds : string) (decpt : Z) : string :=
  let len := Z.of_nat (String.length ds) in
  if ((-4 <? decpt) && (decpt <=? 16))%Z then
    if (decpt <=? 0)%Z then "0." ++ zeros (Z.to_nat (- decpt)) ++ ds
    else if (len <=? decpt)%Z then ds ++ zeros (Z.to_nat (decpt - len)) ++ ".0"
    else String.substring 0 (Z.to_nat decpt) ds ++ "."
           ++ String.substring (Z.to_nat decpt) (Z.to_nat (len - decpt)) ds
  else
    let e := (decpt - 1)%Z in
    let es := str_of_Z (Z.abs e) in
    let mant := match ds with
                | String c EmptyString => ds
                | String c t => String c ("." ++ t)
                | EmptyString => ds
                end in
    mant ++ "e" ++ (if (e <? 0)%Z then "-" else "+")
         ++ (if (Z.abs e <? 10)%Z then "0" else "") ++ es.

Definition to_str (x : spec_float) : string :=
  match x with
  | S754_nan => "nan"
  | S754_infinity neg => if neg then "-inf" else "inf"
  | S754_zero neg => if neg then "-0.0" else "0.0"
  | S754_finite neg m e =>
      let (n, d) := if (0 <=? e)%Z then (Zpos m * 2 ^ e, 1)%Z
                    else (Zpos m, 2 ^ (- e))%Z in
      let t := ilog10 n d in
      let (c, k) := shortest 16 x neg n d t 1 in
      let all := str_of_Z c in
      let ds := rstrip_zeros all in
      (if neg then "-" else "") ++ layout ds (Z.of_nat (String.length all) + k)
  end.

(** *** Reductions of a float64 column *)

Definition is_nan (x : spec_float) : bool :=
  match x with S754_nan => true | _ => false end.

Definition dropna (xs : list spec_float) : list spec_float :=
  List.filter (fun x => negb (is_nan x)) xs.

Definition total (xs : list spec_float) : spec_float :=
  List.fold_left add xs (S754_zero false).

Definition min (xs : list spec_float) : spec_float :=
  match dropna xs with
  | [] => S754_nan
  | y :: ys => List.fold_left (fun a b => if SFltb b a then b else a) ys y
  end.

Definition max (xs : list spec_float) : spec_float :=
  match dropna xs with
  | [] => S754_nan
  | y :: ys => List.fold_left (fun a b => if SFltb a b then b else a) ys y
  end.

Definition sum (xs : list spec_float) : spec_float := total (dropna xs).

Definition mean (xs : list spec_float) : spec_float :=
  match dropna xs with
  | [] => S754_nan
  | ys => div (total ys) (of_nat (List.length ys))
  end.

(** Two passes: the mean, then the squared deviations over
    [count - ddof]. *)
Definition var (ddof : nat) (xs : list spec_float) : spec_float :=
  let ys := dropna xs in
  let n := List.length ys in
  if (n <=? ddof)%nat then S754_nan
  else
    let avg := div (total ys) (of_nat n) in
    let sqr := List.map (fun y => mul (sub avg y) (sub avg y)) ys in
    div (total sqr) (of_nat (n - ddof)).

Definition std (ddof : nat) (xs : list spec_float) : spec_float := sqrt (var ddof xs).

Fixpoint insert_sorted (x : spec_float) (l : list spec_float) : list spec_float :=
  match l with
  | [] => [x]
  | y :: t => if SFleb x y then x :: l else y :: insert_sorted x t
  end.

Definition sort (l : list spec_float) : list spec_float :=
  List.fold_right insert_sorted [] l.

(** The middle of the sorted values, the mean of the two middle ones for
    an even count. *)
Definition median (xs : list spec_float) : spec_float :=
  let ys := sort (dropna xs) in
  let n := List.length ys in
  match n with
  | O => S754_nan
  | S _ =>
      if Nat.even n
      then div (add (List.nth (n / 2 - 1) ys S754_nan) (List.nth (n / 2) ys S754_nan))
               (of_nat 2)
      else List.nth (n / 2) ys S754_nan
  end.

End Binary64.

#[export] Instance binary64 : Float64 := {|
  float64 := spec_float;
  float_of_str := Binary64.of_str;
  NaN := S754_nan;
  nanmin := Binary64.min;
  nanmax := Binary64.max;
  nanmean := Binary64.mean;
  nansum := Binary64.sum;
  nanmedian := Binary64.median;
  nanstd := Binary64.std;
  nanvar := Binary64.var;
  str_of_float := Binary64.to_str
|}.

(** ** The Sheets client and [get_google_sheet] *)

Module sheets.
(** The body of a [values().get(...)] answer; the key ['values'] may be
    absent. *)
Record response : Type := { values : option (list (list string)) }.
(** [build(...)] up to [.execute()], for a spreadsheet id and a range. *)
Definition client : Type := string -> string -> result response.
End sheets.

(** The columns of [pd.DataFrame(data, columns=columns)]: cell [j] of every
    row under label [j]; a row that is too short gives [None].  Column
    labels are taken to be distinct. *)
Definition frame (data : list (list string)) (columns : list string) : DataFrame :=
  list_to_map (imap (fun j label => (label, (fun row : list string => row !! j) <$> data)) columns).

Definition width (data : list (list string)) : nat :=
  foldr (fun row n => Nat.max (List.length row) n) 0 data.

(** [pd.DataFrame(data, columns=columns)] for a list of rows. *)
Definition DataFrame_new (data : list (list string)) (columns : list string)
  : result DataFrame :=
  match data with
  | [] => Ok (frame data columns)
  | _ :: _ =>
      if Nat.eqb (List.length columns) (width data) then Ok (frame data columns)
      else Raise (ValueError (str_of_nat (List.length columns)
                    ++ " columns passed, passed data had "
                    ++ str_of_nat (width data) ++ " columns"))
  end.

(** What a call leaves behind: the texts passed to [st.error], and the
    returned value ([None], or a table). *)
Definition outcome : Type := list string * option DataFrame.

Definition get_google_sheet (api : sheets.client) (spreadsheet_id range_name : string)
  : outcome :=
  try_except
    (result ← api spreadsheet_id range_name;
     let values := default [] (sheets.values result) in
     match values with
     | [] => Ok (["No data found."], None)
     | header :: rows => df ← DataFrame_new rows header; Ok ([], Some df)
     end)
    (fun e => (["Error connecting to Google Sheets: " ++ str_of_exception e], None)).

(** The "No data found" signal, and a hard failure carrying a message. *)
Definition no_data : outcome := (["No data found."], None).
Definition failure (msg : string) : outcome :=
  (["Error connecting to Google Sheets: " ++ msg], None).

(** The number of data rows of a grid: the rows after the header. *)
Definition data_rows (grid : list (list string)) : nat := List.length (tail grid).

(** ** The design of the interpreter

    The spec's reading of the cascade (sections 4.2 and 9): an ordered list
    of keyword families, the first one with a keyword in the prompt
    selecting the statistic. *)

Inductive statistic : Type :=
| Minimum | Maximum | Average | Sum | Count | Median | StdDev | Variance.

Definition keywords (st : statistic) : list string :=
  match st with
  | Minimum => ["minimum"; "lowest"]
  | Maximum => ["maximum"; "highest"]
  | Average => ["average"; "mean"]
  | Sum => ["sum"; "total"]
  | Count => ["count"; "number of"]
  | Median => ["median"]
  | StdDev => ["standard deviation"; "std dev"]
  | Variance => ["variance"]
  end.

Definition order : list statistic :=
  [Minimum; Maximum; Average; Sum; Count; Median; StdDev; Variance].

(** A prompt (already lower-cased) matches a family when one of its
    keywords occurs in it. *)
Definition matches (st : statistic) (p : string) : bool :=
  existsb (fun k => contains k p) (keywords st).

(** The first family of [order] that matches. *)
Definition first_match (p : string) : option statistic :=
  List.find (fun st => matches st p) order.

(** The name of a statistic in a result. *)
Definition stat_name (st : statistic) : string :=
  match st with
  | Minimum => "minimum"
  | Maximum => "maximum"
  | Average => "average"
  | Sum => "sum"
  | Count => "count"
  | Median => "median"
  | StdDev => "standard deviation"
  | Variance => "variance"
  end.

(** A result as the spec words it: "value in column" for the seven numeric
    statistics, "of values in column" for the count. *)
Definition spec_message (st : statistic) (column value : string) : string :=
  match st with
  | Count => "The count of values in column '" ++ column ++ "' is " ++ value ++ "."
  | _ => "The " ++ stat_name st ++ " value in column '" ++ column ++ "' is " ++ value ++ "."
  end.

(** A result as lines 49 to 70 word it: "value in column" for minimum,
    maximum, average and median, "of values in column" for the other
    four. *)
Definition wording (st : statistic) : string :=
  match st with
  | Minimum | Maximum | Average | Median => " value in column '"
  | Sum | Count | StdDev | Variance => " of values in column '"
  end.

Definition message (st : statistic) (column value : string) : string :=
  "The " ++ stat_name st ++ wording st ++ column ++ "' is " ++ value ++ ".".

Section Design.
Context {F : Float64}.

Definition reduce (st : statistic) (xs : list float64) : float64 :=
  match st with
  | Minimum => nanmin xs
  | Maximum => nanmax xs
  | Average => nanmean xs
  | Sum => nansum xs
  | Median => nanmedian xs
  | StdDev => nanstd 1 xs
  | Variance => nanvar 1 xs
  | Count => NaN
  end.

(** The value a statistic prints for a column: the count as it is, the
    others after the cast to float. *)
Definition value_text (st : statistic) (s : Series) : result string :=
  match st with
  | Count => Ok (str_of_nat (count s))
  | _ => xs ← astype_float s; Ok (str_of_float (reduce st xs))
  end.

Definition compute (st : statistic) (df : DataFrame) (column : string) : result string :=
  s ← getitem df column; v ← value_text st s; Ok (message st column v).

(** The whole interpreter as a dispatch on the first matching family. *)
Definition evaluate (df : DataFrame) (column prompt : string) : string :=
  try_except
    match first_match (lower prompt) with
    | Some st => compute st df column
    | None => Ok unsupported
    end
    handler.

End Design.

(** The place of a family in the cascade. *)
Definition rank (st : statistic) : nat :=
  match st with
  | Minimum => 0 | Maximum => 1 | Average => 2 | Sum => 3
  | Count => 4 | Median => 5 | StdDev => 6 | Variance => 7
  end.

(** ** Case variants of a prompt *)

Definition swapcase_char (c : ascii) : ascii :=
  let n := N_of_ascii c in
  if ((65 <=? n) && (n <=? 90))%N then ascii_of_N (n + 32)
  else if ((97 <=? n) && (n <=? 122))%N then ascii_of_N (n - 32)
  else c.

(** [q] is [p] with the case of some of its letters changed. *)
Inductive case_variant : string -> string -> Prop :=
| cv_nil : case_variant EmptyString EmptyString
| cv_keep c p q : case_variant p q -> case_variant (String c p) (String c q)
| cv_swap c p q : case_variant p q -> case_variant (String c p) (String (swapcase_char c) q).

Fixpoint case_variantb (p q : string) : bool :=
  match p, q with
  | EmptyString, EmptyString => true
  | String a p', String b q' =>
      (Ascii.eqb a b || Ascii.eqb (swapcase_char a) b) && case_variantb p' q'
  | _, _ => false
  end.

(** ** Tables and prompts used below *)

(** The table of the spec's round trip, one with text in its column and
    one with decimal fractions. *)
Definition ages : DataFrame := {[ "Age" := [Some "10"; Some "20"; Some "30"] ]}.
Definition names : DataFrame := {[ "Name" := [Some "abc"; None; Some "x y"] ]}.
Definition tenths : DataFrame := {[ "X" := [Some "0.1"; Some "0.2"; Some "0.3"] ]}.

(** A Sheets client that answers every request the same way, the answer
    for a range holding [grid], and the answer for a range holding
    nothing. *)
Definition serving (r : sheets.response) : sheets.client := fun _ _ => Ok r.
Definition holding (grid : list (list string)) : sheets.response :=
  {| sheets.values := Some grid |}.
Definition blank : sheets.response := {| sheets.values := None |}.

(** A prompt of [n] spaces followed by [s]. *)
Fixpoint pad (n : nat) (s : string) : string :=
  match n with
  | O => s
  | S k => String " "%char (pad k s)
  end.

(** ** The dashboard: the load button and the export

    The parts of [main] around the two functions: what a click on "Load
    Google Sheet" does (lines 109 to 119), and the file offered for
    download after an extraction (lines 95-96 and 130-131). *)

Module streamlit.
(** What a run puts on the page: [st.error(body)], [st.write(body)] for a
    text, and [st.write(df)] for a table. *)
Inductive element : Type :=
| error (body : string)
| write (body : string)
| dataframe (df : DataFrame).
End streamlit.

(** [df.head()]: the first five rows. *)
Definition head (df : DataFrame) : DataFrame := take 5 <$> df.

(** [bool(s)] of a [str]. *)
Definition truthy (s : string) : bool := negb (String.eqb s "").

(** Lines 110 to 119, for the texts of the two inputs and the table kept
    under [st.session_state['google_df']], if any: the elements shown, and
    the table kept afterwards. *)
Definition load_clicked (api : sheets.client) (spreadsheet_id range_name : string)
    (google_df : option DataFrame) : list streamlit.element * option DataFrame :=
  if truthy spreadsheet_id && truthy range_name then
    let (reported, df) := get_google_sheet api spreadsheet_id range_name in
    match df with
    | Some d =>
        (((streamlit.error <$> reported)
            ++ [streamlit.write "Google Sheet Data Preview:"; streamlit.dataframe (head d)])%list,
         Some d)
    | None =>
        (((streamlit.error <$> reported)
            ++ [streamlit.error
                  "No data found. Please check the Google Sheets ID and range."])%list,
         google_df)
    end
  else
    ([streamlit.error "Please provide both Google Sheets ID and range."], google_df).

(** The csv writer behind [to_csv] (Python's, before 3.13, with pandas'
    defaults): a field is quoted when it is empty or holds the delimiter,
    the quote character or a character of the line terminator, and quotes
    inside it are doubled.  The line terminator is [os.linesep]. *)
Definition quote_char : ascii := "034"%char.

Definition special (linesep : string) (c : ascii) : bool :=
  Ascii.eqb c ","%char || Ascii.eqb c quote_char || mem_char c linesep.

Fixpoint any_special (linesep s : string) : bool :=
  match s with
  | EmptyString => false
  | String c t => special linesep c || any_special linesep t
  end.

Fixpoint double_quotes (s : string) : string :=
  match s with
  | EmptyString => EmptyString
  | String c t =>
      if Ascii.eqb c quote_char then String quote_char (String quote_char (double_quotes t))
      else String c (double_quotes t)
  end.

Definition csv_field (linesep s : string) : string :=
  if String.eqb s "" || any_special linesep s
  then String quote_char (double_quotes s ++ String quote_char EmptyString)
  else s.

(** [pd.DataFrame([{"Extracted Info": extracted_info}]).to_csv(index=False)]
    and its [encode('utf-8')], which keeps ASCII text as it is. *)
Definition to_csv (linesep extracted_info : string) : string :=
  "Extracted Info" ++ linesep ++ csv_field linesep extracted_info ++ linesep.

(** The line feed, [os.linesep] on Linux. *)
Definition LF : string := String "010"%char EmptyString.

(** The table [ages] with a column of names beside it. *)
Definition staff : DataFrame := <["Name" := [Some "Ann"; Some "Bob"; Some "Cy"]]> ages.

(** ** The mean of a column as an exact number

    Every finite double is a whole number of units of 2^-1074, so the
    exact sum of a column is an integer in that unit and its exact mean a
    fraction. *)

Module Exact.

(** The value of a finite double in units of 2^-1074. *)
Definition units (x : spec_float) : option Z :=
  match x with
  | S754_zero _ => Some 0%Z
  | S754_finite neg m e =>
      if (0 <=? e + 1074)%Z
      then Some ((if neg then -1 else 1) * Zpos m * 2 ^ (e + 1074))%Z
      else None
  | _ => None
  end.

(** The sum of the values, without rounding. *)
Fixpoint total (xs : list spec_float) : option Z :=
  match xs with
  | [] => Some 0%Z
  | x :: t =>
      match units x, total t with
      | Some u, Some v => Some (u + v)%Z
      | _, _ => None
      end
  end.



End Exact.

(** ** Prompts outside ASCII, and prompts of more than a million characters *)

(** The dotless i and the long s, in UTF-8. *)
Definition dotless_i : string := String "196" (String "177" EmptyString).
Definition long_s : string := String "197" (String "191" EmptyString).

(** "minimum" written with dotless i, and "sum" written with a long s. *)
Definition dotless_minimum : string := "m" ++ dotless_i ++ "n" ++ dotless_i ++ "mum".
Definition long_s_sum : string := long_s ++ "um".

(** Prompts of 1000001 characters: spaces before a query, and spaces
    alone. *)
Definition long_total_average : string := pad (N.to_nat 999980) "Get the total average".
Definition long_count : string := pad (N.to_nat 999996) "count".
Definition long_blank : string := pad (N.to_nat 1000001) "".

(** * Properties *)

(** ** Strings *)

Lemma startswith_app (k post : string) : startswith k (k ++ post) = true.
Proof.
  induction k as [|c k IH]; simpl; [reflexivity|].
  now rewrite Ascii.eqb_refl.
Qed.

Lemma startswith_inv (k s : string) :
  startswith k s = true -> exists post, s = k ++ post.
Proof.
  revert s; induction k as [|c k IH]; intros s Hs.
  - now exists s.
  - destruct s as [|d s]; simpl in Hs; [discriminate|].
    destruct (Ascii.eqb c d) eqn:E; [|discriminate].
    apply Ascii.eqb_eq in E; subst d.
    destruct (IH _ Hs) as [post ->]. now exists post.
Qed.

Lemma startswith_contains (k s : string) : startswith k s = true -> contains k s = true.
Proof. intros Hs. destruct s; simpl; rewrite Hs; reflexivity. Qed.

Lemma contains_app (k pre post : string) : contains k (pre ++ k ++ post) = true.
Proof.
  induction pre as [|c pre IH].
  - change (contains k (k ++ post) = true).
    apply startswith_contains, startswith_app.
  - change (contains k (String c (pre ++ k ++ post)) = true).
    simpl. rewrite IH. apply orb_true_r.
Qed.

Lemma contains_inv (k s : string) :
  contains k s = true -> exists pre post, s = pre ++ k ++ post.
Proof.
  induction s as [|c s IH]; simpl; intros Hs.
  - rewrite orb_false_r in Hs. apply startswith_inv in Hs as [post ->].
    now exists EmptyString, post.
  - apply orb_true_iff in Hs as [Hs|Hs].
    + apply startswith_inv in Hs as [post ->]. now exists EmptyString, post.
    + destruct (IH Hs) as (pre & post & ->). now exists (String c pre), post.
Qed.

(** ** The cascade as a dispatch *)

Lemma first_match_intro (p : string) (st : statistic) :
  matches st p = true ->
  (forall st', rank st' < rank st -> matches st' p = false) ->
  first_match p = Some st.
Proof.
  intros Hm Hlt. unfold first_match, order, List.find.
  destruct st;
    repeat first
      [ rewrite Hm; reflexivity
      | match goal with
        | |- (if matches ?s p then _ else _) = _ => rewrite (Hlt s) by (simpl; lia)
        end ].
Qed.

Lemma first_match_elim (p : string) (st : statistic) :
  first_match p = Some st ->
  matches st p = true /\ forall st', rank st' < rank st -> matches st' p = false.
Proof.
  unfold first_match, order, List.find.
  destruct (matches Minimum p) eqn:E0; [intros [= <-]; split; [assumption|simpl; lia]|].
  destruct (matches Maximum p) eqn:E1;
    [intros [= <-]; split; [assumption|intros []; simpl; (lia || trivial)]|].
  destruct (matches Average p) eqn:E2;
    [intros [= <-]; split; [assumption|intros []; simpl; (lia || trivial)]|].
  destruct (matches Sum p) eqn:E3;
    [intros [= <-]; split; [assumption|intros []; simpl; (lia || trivial)]|].
  destruct (matches Count p) eqn:E4;
    [intros [= <-]; split; [assumption|intros []; simpl; (lia || trivial)]|].
  destruct (matches Median p) eqn:E5;
    [intros [= <-]; split; [assumption|intros []; simpl; (lia || trivial)]|].
  destruct (matches StdDev p) eqn:E6;
    [intros [= <-]; split; [assumption|intros []; simpl; (lia || trivial)]|].
  destruct (matches Variance p) eqn:E7;
    [intros [= <-]; split; [assumption|intros []; simpl; (lia || trivial)]|].
  discriminate.
Qed.

Lemma first_match_none (p : string) :
  (forall st, matches st p = false) -> first_match p = None.
Proof.
  intros Hn. unfold first_match, order, List.find.
  now rewrite !Hn.
Qed.

Lemma first_match_none_iff (p : string) :
  first_match p = None <-> forall st, matches st p = false.
Proof.
  split; [|apply first_match_none].
  intros Hn st. apply (List.find_none _ _ Hn).
  destruct st; simpl; tauto.
Qed.

Lemma matches_intro (st : statistic) (k pre post : string) :
  In k (keywords st) -> matches st (pre ++ k ++ post) = true.
Proof.
  intros Hk. unfold matches. apply existsb_exists.
  exists k. split; [assumption|apply contains_app].
Qed.

Section Dispatch.
Context {F : Float64}.

Ltac branch :=
  unfold compute, value_text, reduce, message, stat_name, wording;
  unfold mbind, result_bind, Py.bind;
  repeat match goal with
         | |- context [match ?r with Ok _ => _ | Raise _ => _ end] => destruct r
         end;
  reflexivity.

Lemma answer_dispatch (df : DataFrame) (column prompt : string) :
  answer df column prompt =
  match first_match (lower prompt) with
  | Some st => compute st df column
  | None => Ok unsupported
  end.
Proof.
  unfold answer, first_match, order, List.find, matches, keywords, existsb.
  generalize (lower prompt); intros p.
  rewrite !orb_false_r.
  destruct (contains "minimum" p); [simpl; branch|].
  destruct (contains "lowest" p); [simpl; branch|].
  destruct (contains "maximum" p); [simpl; branch|].
  destruct (contains "highest" p); [simpl; branch|].
  destruct (contains "average" p); [simpl; branch|].
  destruct (contains "mean" p); [simpl; branch|].
  destruct (contains "sum" p); [simpl; branch|].
  destruct (contains "total" p); [simpl; branch|].
  destruct (contains "count" p); [simpl; branch|].
  destruct (contains "number of" p); [simpl; branch|].
  destruct (contains "median" p); [simpl; branch|].
  destruct (contains "standard deviation" p); [simpl; branch|].
  destruct (contains "std dev" p); [simpl; branch|].
  destruct (contains "variance" p); [simpl; branch|].
  reflexivity.
Qed.

(** With the model installed the parse step returns on every prompt of at
    most [nlp.max_length] characters. *)
Lemma parse_installed (prompt : string) :
  (N.of_nat (String.length prompt) <= spacy.max_length)%N ->
  parse spacy.installed prompt = Ok tt.
Proof.
  intros Hlen. unfold parse. cbn [spacy.load spacy.installed].
  change (String.eqb "en_core_web_sm" "en_core_web_sm") with true. cbn iota.
  unfold mbind, result_bind, Py.bind, spacy.en_core_web_sm.
  apply N.ltb_ge in Hlen. now rewrite Hlen.
Qed.

Lemma extract_info_parsed (sp : spacy.module) (df : DataFrame) (column prompt : string) :
  parse sp prompt = Ok tt ->
  extract_info sp df column prompt = extract_info_without_parse df column prompt.
Proof.
  intros Hp. unfold extract_info, extract_info_without_parse.
  unfold mbind, result_bind, Py.bind. now rewrite Hp.
Qed.

Lemma extract_info_evaluate (sp : spacy.module) (df : DataFrame) (column prompt : string) :
  parse sp prompt = Ok tt ->
  extract_info sp df column prompt = evaluate df column prompt.
Proof.
  intros Hp. rewrite (extract_info_parsed _ _ _ _ Hp).
  unfold extract_info_without_parse, evaluate. now rewrite answer_dispatch.
Qed.

End Dispatch.

(** ** Runs in which the parse step raises *)

Lemma length_pad (n : nat) (s : string) :
  String.length (pad n s) = n + String.length s.
Proof. induction n as [|n IH]; simpl; congruence. Qed.

Lemma lower_pad (n : nat) (s : string) : lower (pad n s) = pad n (lower s).
Proof. induction n as [|n IH]; simpl; [reflexivity|]. now rewrite IH. Qed.

Lemma contains_pad (k : string) (n : nat) (s : string) :
  contains k s = true -> contains k (pad n s) = true.
Proof.
  intros Hs. induction n as [|n IH]; simpl; [assumption|].
  rewrite IH. apply orb_true_r.
Qed.

(** Leading spaces change no keyword test: no trigger starts with a
    space. *)
Lemma contains_pad_eq (c : ascii) (k : string) (n : nat) (s : string) :
  Ascii.eqb c " " = false ->
  contains (String c k) (pad n s) = contains (String c k) s.
Proof.
  intros Hc. induction n as [|n IH]; [reflexivity|].
  cbn [pad]. rewrite <- IH. cbn [contains startswith]. now rewrite Hc.
Qed.

Lemma matches_pad (st : statistic) (n : nat) (s : string) :
  matches st (lower (pad n s)) = matches st (lower s).
Proof.
  rewrite lower_pad. destruct st; unfold matches; cbn [keywords existsb];
    rewrite !contains_pad_eq by reflexivity; reflexivity.
Qed.

(** A prompt longer than [nlp.max_length] is refused by the pipeline, and
    the refusal is what [extract_info] returns, whatever the prompt asks. *)
Lemma long_prompt_refused {F : Float64} (df : DataFrame) (column prompt : string) :
  (spacy.max_length < N.of_nat (String.length prompt))%N ->
  extract_info spacy.installed df column prompt
  = "Error: " ++ spacy.E088 (N.of_nat (String.length prompt)).
Proof.
  intros Hlen. unfold extract_info, parse. cbn [spacy.load spacy.installed].
  change (String.eqb "en_core_web_sm" "en_core_web_sm") with true.
  cbn iota. unfold mbind, result_bind, Py.bind, spacy.en_core_web_sm.
  apply N.ltb_lt in Hlen. now rewrite Hlen.
Qed.

Lemma long_prompt_length (n : N) (s : string) :
  N.of_nat (String.length (pad (N.to_nat n) s)) = (n + N.of_nat (String.length s))%N.
Proof. now rewrite length_pad, Nat2N.inj_add, N2Nat.id. Qed.

(** Without the model package [spacy.load] raises, and its error is what
    [extract_info] returns, whatever the prompt asks. *)
Lemma missing_model {F : Float64} (df : DataFrame) (column prompt : string) :
  extract_info spacy.missing df column prompt
  = "Error: [E050] Can't find model 'en_core_web_sm'. It doesn't seem to be a Python package or a valid path to a data directory.".
Proof. reflexivity. Qed.

Lemma error_not_unsupported (e : Exception) : handler e <> unsupported.
Proof. discriminate. Qed.

(** ** The interpreter *)

(** The precedence of the families is not reached when lines 44 and 45
    raise.  "Get the total average" holds keywords of the average and of
    the sum; with the model package missing the result is the error of
    [spacy.load], and with the package installed the same query after
    999980 spaces gets the refusal of the pipeline: neither is the result
    of the average branch. *)
Lemma total_average_unparsed :
  (matches Average (lower "Get the total average") = true
   /\ matches Sum (lower "Get the total average") = true
   /\ try_except (compute (F := binary64) Average ages "Age") handler
      = "The average value in column 'Age' is 20.0."
   /\ extract_info (F := binary64) spacy.missing ages "Age" "Get the total average"
      = "Error: [E050] Can't find model 'en_core_web_sm'. It doesn't seem to be a Python package or a valid path to a data directory."
   /\ extract_info (F := binary64) spacy.missing ages "Age" "Get the total average"
      <> try_except (compute (F := binary64) Average ages "Age") handler)
  /\ (matches Average (lower long_total_average) = true
      /\ matches Sum (lower long_total_average) = true
      /\ extract_info (F := binary64) spacy.installed ages "Age" long_total_average
         = "Error: " ++ spacy.E088 1000001
      /\ extract_info (F := binary64) spacy.installed ages "Age" long_total_average
         <> try_except (compute (F := binary64) Average ages "Age") handler).
Proof.
  assert (Hlong : extract_info (F := binary64) spacy.installed ages "Age" long_total_average
                  = "Error: " ++ spacy.E088 1000001).
  { unfold long_total_average.
    rewrite long_prompt_refused; rewrite long_prompt_length; reflexivity. }
  split.
  - split; [reflexivity|]. split; [reflexivity|]. split; [vm_compute; reflexivity|].
    split; [apply missing_model|]. rewrite missing_model. vm_compute. discriminate.
  - unfold long_total_average at 1 2. rewrite !matches_pad.
    split; [reflexivity|]. split; [reflexivity|].
    split; [exact Hlong|]. rewrite Hlong. vm_compute. discriminate.
Qed.

(** C4 (amended). In a run in which the parse step of lines 44 and 45
    returns, a prompt that matches several families resolves to the one
    checked first in the order minimum, maximum, average, sum, count,
    median, standard deviation, variance: when a family matches and none
    before it does, the result is that family's statistic alone, whatever
    later families match.  "Get the total average" matches both average
    and sum and, with the model installed, resolves to the average. *)
Theorem first_match_wins :
  (forall (F : Float64) (sp : spacy.module) (df : DataFrame)
          (column prompt : string) (st : statistic),
      parse sp prompt = Ok tt ->
      matches st (lower prompt) = true ->
      (forall st', rank st' < rank st -> matches st' (lower prompt) = false) ->
      extract_info sp df column prompt = try_except (compute st df column) handler)
  /\ (forall st, order !! rank st = Some st)
  /\ (matches Average (lower "Get the total average") = true
      /\ matches Sum (lower "Get the total average") = true
      /\ first_match (lower "Get the total average") = Some Average
      /\ extract_info (F := binary64) spacy.installed ages "Age" "Get the total average"
         = "The average value in column 'Age' is 20.0.").
Proof.
  split; [|split].
  - intros F sp df column prompt st Hp Hm Hlt.
    rewrite (extract_info_evaluate _ _ _ _ Hp). unfold evaluate.
    now rewrite (first_match_intro _ _ Hm Hlt).
  - intros []; reflexivity.
  - repeat split; vm_compute; reflexivity.
Qed.

Lemma first_match_wins_witness :
  parse spacy.installed "Which is the lowest, which the highest?" = Ok tt
  /\ matches Minimum (lower "Which is the lowest, which the highest?") = true
  /\ (forall st', rank st' < rank Minimum ->
        matches st' (lower "Which is the lowest, which the highest?") = false)
  /\ extract_info (F := binary64) spacy.installed ages "Age"
       "Which is the lowest, which the highest?"
     = "The minimum value in column 'Age' is 10.0.".
Proof.
  assert (Hlt : forall st', rank st' < rank Minimum ->
            matches st' (lower "Which is the lowest, which the highest?") = false)
    by (intros st'; simpl; lia).
  split; [reflexivity|]. split; [reflexivity|]. split; [exact Hlt|].
  rewrite (proj1 first_match_wins binary64 spacy.installed ages "Age"
             "Which is the lowest, which the highest?" Minimum
             eq_refl eq_refl Hlt).
  vm_compute. reflexivity.
Defined.

Lemma statistic_not_unsupported {F : Float64} (st : statistic) (df : DataFrame)
    (column : string) :
  try_except (compute st df column) handler <> unsupported.
Proof.
  unfold compute, mbind, result_bind, Py.bind.
  destruct (getitem df column) as [s|e]; [|discriminate].
  destruct (value_text st s) as [v|e]; [|discriminate].
  destruct st; discriminate.
Qed.

(** A prompt without a trigger does not get the guidance text when lines
    44 and 45 raise: "Tell me a joke" gets the error of [spacy.load] when
    the model package is missing, and a prompt of 1000001 spaces gets the
    refusal of the pipeline when it is installed. *)
Lemma joke_unparsed :
  ((forall st, matches st (lower "Tell me a joke") = false)
   /\ extract_info (F := binary64) spacy.missing ages "Age" "Tell me a joke"
      = "Error: [E050] Can't find model 'en_core_web_sm'. It doesn't seem to be a Python package or a valid path to a data directory."
   /\ extract_info (F := binary64) spacy.missing ages "Age" "Tell me a joke"
      <> unsupported)
  /\ ((forall st, matches st (lower long_blank) = false)
      /\ extract_info (F := binary64) spacy.installed ages "Age" long_blank
         = "Error: " ++ spacy.E088 1000001
      /\ extract_info (F := binary64) spacy.installed ages "Age" long_blank
         <> unsupported).
Proof.
  assert (Hlong : extract_info (F := binary64) spacy.installed ages "Age" long_blank
                  = "Error: " ++ spacy.E088 1000001).
  { unfold long_blank.
    rewrite long_prompt_refused; rewrite long_prompt_length; reflexivity. }
  split.
  - split; [intros []; reflexivity|]. split; [apply missing_model|].
    rewrite missing_model. discriminate.
  - split; [intros st; unfold long_blank; rewrite matches_pad; now destruct st|].
    split; [exact Hlong|].
    rewrite Hlong. discriminate.
Qed.

(** C7 (amended). In a run in which the parse step of lines 44 and 45
    returns, a prompt that matches none of the eight families gets the one
    fixed guidance text, verbatim, for every table and every column name,
    present in the table or not; the text names each of the eight
    families. *)
Theorem unsupported_query :
  (forall (F : Float64) (sp : spacy.module) (df : DataFrame) (column prompt : string),
      parse sp prompt = Ok tt ->
      (forall st, matches st (lower prompt) = false) ->
      extract_info sp df column prompt
      = "Query not supported. Please rephrase your query to include 'minimum', 'maximum', 'average', 'sum', 'count', 'median', 'standard deviation', or 'variance'.")
  /\ (forall st, contains ("'" ++ stat_name st ++ "'") unsupported = true)
  /\ (forall st, matches st (lower "Tell me a joke") = false).
Proof.
  split; [|split].
  - intros F sp df column prompt Hp Hn.
    rewrite (extract_info_evaluate _ _ _ _ Hp). unfold evaluate.
    now rewrite (first_match_none _ Hn).
  - intros []; reflexivity.
  - intros []; reflexivity.
Qed.

Lemma unsupported_query_witness :
  parse spacy.installed "Tell me a joke" = Ok tt
  /\ (forall st, matches st (lower "Tell me a joke") = false)
  /\ extract_info (F := binary64) spacy.installed ages "Age" "Tell me a joke" = unsupported
  /\ extract_info (F := binary64) spacy.installed ages "Height" "Tell me a joke" = unsupported
  /\ extract_info (F := binary64) spacy.installed names "Name" "Tell me a joke" = unsupported.
Proof.
  assert (Hn : forall st, matches st (lower "Tell me a joke") = false)
    by (intros []; reflexivity).
  split; [reflexivity|]. split; [exact Hn|].
  split; [|split];
    exact (proj1 unsupported_query binary64 spacy.installed _ _ "Tell me a joke" eq_refl Hn).
Defined.

(** A trigger inside a longer word does not always give its own
    statistic.  "Give me a summary of the lowest" holds "sum" inside
    "summary" and gets the minimum, because the minimum family is tested
    first; and with the model package missing "Give me a summary" gets the
    error of [spacy.load]. *)
Lemma summary_of_the_lowest :
  (In "sum" (keywords Sum)
   /\ lower "Give me a summary of the lowest"
      = "give me a " ++ "sum" ++ "mary of the lowest"
   /\ extract_info (F := binary64) spacy.installed ages "Age"
        "Give me a summary of the lowest"
      = "The minimum value in column 'Age' is 10.0."
   /\ try_except (compute (F := binary64) Sum ages "Age") handler
      = "The sum of values in column 'Age' is 60.0."
   /\ extract_info (F := binary64) spacy.installed ages "Age"
        "Give me a summary of the lowest"
      <> try_except (compute (F := binary64) Sum ages "Age") handler)
  /\ (lower "Give me a summary" = "give me a " ++ "sum" ++ "mary"
      /\ extract_info (F := binary64) spacy.missing ages "Age" "Give me a summary"
         = "Error: [E050] Can't find model 'en_core_web_sm'. It doesn't seem to be a Python package or a valid path to a data directory."
      /\ extract_info (F := binary64) spacy.missing ages "Age" "Give me a summary"
         <> try_except (compute (F := binary64) Sum ages "Age") handler).
Proof.
  split.
  - split; [simpl; tauto|]. split; [reflexivity|].
    split; [vm_compute; reflexivity|]. split; [vm_compute; reflexivity|].
    vm_compute. discriminate.
  - split; [reflexivity|]. split; [apply missing_model|].
    rewrite missing_model. vm_compute. discriminate.
Qed.

(** C10 (amended). Matching is substring containment on the lower-cased
    prompt.  A prompt with a trigger string anywhere in it, inside a
    longer word or not, never gets the guidance text; in a run in which
    the parse step returns it gets the statistic of the first family of
    the cascade with a trigger in the prompt, which is the trigger's own
    family or an earlier one, and the trigger's own when no earlier family
    matches.  "Give me a summary" holds "sum" and, with the model
    installed, yields the sum. *)
Theorem keyword_inside_word :
  (forall (F : Float64) (sp : spacy.module) (df : DataFrame)
          (column prompt : string) (st : statistic) (k pre post : string),
      In k (keywords st) ->
      lower prompt = pre ++ k ++ post ->
      extract_info sp df column prompt <> unsupported
      /\ (parse sp prompt = Ok tt ->
          exists st',
            first_match (lower prompt) = Some st'
            /\ rank st' <= rank st
            /\ extract_info sp df column prompt
               = try_except (compute st' df column) handler)
      /\ (parse sp prompt = Ok tt ->
          (forall st', rank st' < rank st -> matches st' (lower prompt) = false) ->
          extract_info sp df column prompt = try_except (compute st df column) handler))
  /\ (forall k s, contains k s = true <-> exists pre post, s = pre ++ k ++ post)
  /\ extract_info (F := binary64) spacy.installed ages "Age" "Give me a summary"
     = "The sum of values in column 'Age' is 60.0.".
Proof.
  split; [|split].
  - intros F sp df column prompt st k pre post Hk Hl.
    assert (Hm : matches st (lower prompt) = true)
      by (rewrite Hl; now apply matches_intro).
    assert (Hfirst : exists st', first_match (lower prompt) = Some st'
                                 /\ rank st' <= rank st).
    { destruct (first_match (lower prompt)) as [st'|] eqn:Hf.
      - exists st'. split; [reflexivity|].
        destruct (first_match_elim _ _ Hf) as [_ Hlt].
        destruct (Nat.le_gt_cases (rank st') (rank st)) as [Hle|Hgt]; [exact Hle|].
        rewrite (Hlt _ Hgt) in Hm. discriminate Hm.
      - apply first_match_none_iff with (st := st) in Hf. congruence. }
    destruct Hfirst as (st' & Hf & Hle).
    split; [|split].
    + unfold extract_info. destruct (parse sp prompt) as [doc|e].
      * cbn [mbind result_bind Py.bind try_except]. rewrite answer_dispatch, Hf.
        apply statistic_not_unsupported.
      * apply error_not_unsupported.
    + intros Hp. exists st'. split; [exact Hf|]. split; [exact Hle|].
      rewrite (extract_info_evaluate _ _ _ _ Hp). unfold evaluate. now rewrite Hf.
    + intros Hp Hlt.
      rewrite (extract_info_evaluate _ _ _ _ Hp). unfold evaluate.
      now rewrite (first_match_intro _ _ Hm Hlt).
  - intros k s. split; [apply contains_inv|].
    intros (pre & post & ->). apply contains_app.
  - vm_compute. reflexivity.
Qed.

Lemma keyword_inside_word_witness :
  In "sum" (keywords Sum)
  /\ lower "Give me a summary" = "give me a " ++ "sum" ++ "mary"
  /\ parse spacy.installed "Give me a summary" = Ok tt
  /\ (forall st', rank st' < rank Sum -> matches st' (lower "Give me a summary") = false)
  /\ extract_info (F := binary64) spacy.installed names "Name" "Give me a summary"
     <> unsupported
  /\ extract_info (F := binary64) spacy.installed names "Name" "Give me a summary"
     = "Error: could not convert string to float: 'abc'".
Proof.
  assert (Hlt : forall st', rank st' < rank Sum ->
                  matches st' (lower "Give me a summary") = false)
    by (intros []; simpl; first [lia | reflexivity]).
  assert (Hk : In "sum" (keywords Sum)) by (simpl; tauto).
  split; [exact Hk|]. split; [reflexivity|]. split; [reflexivity|]. split; [exact Hlt|].
  destruct (proj1 keyword_inside_word binary64 spacy.installed names "Name"
              "Give me a summary" Sum "sum" "give me a " "mary"
              Hk eq_refl) as (Hne & _ & Hown).
  split; [exact Hne|].
  rewrite (Hown eq_refl Hlt). vm_compute. reflexivity.
Defined.

(** ** Failures *)

Lemma astype_float_raises {F : Float64} (s : Series) :
  (exists t, In (Some t) s /\ float_of_str t = None) ->
  exists t, In (Some t) s /\ float_of_str t = None
            /\ astype_float s
               = Raise (ValueError ("could not convert string to float: " ++ repr t)).
Proof.
  induction s as [|c s IH]; intros (t & Hin & Ht); [destruct Hin|].
  cbn [astype_float]. unfold mbind, result_bind, Py.bind.
  destruct c as [u|]; cbn [cell_to_float].
  - destruct (float_of_str u) as [x|] eqn:Hu.
    + destruct Hin as [[= ->]|Hin]; [congruence|].
      destruct IH as (t' & Hin' & Ht' & ->); [now exists t|].
      exists t'. repeat split; [now right|assumption].
    + exists u. repeat split; [now left|assumption].
  - destruct Hin as [[=]|Hin].
    destruct IH as (t' & Hin' & Ht' & ->); [now exists t|].
    exists t'. repeat split; [now right|assumption].
Qed.

Lemma contains_suffix (k pre : string) : contains k (pre ++ k) = true.
Proof.
  induction pre as [|c pre IH].
  - change (contains k k = true). apply startswith_contains.
    induction k as [|c k IH]; simpl; [reflexivity|]. now rewrite Ascii.eqb_refl.
  - change (contains k (String c (pre ++ k)) = true).
    simpl. rewrite IH. apply orb_true_r.
Qed.

(** C5. [extract_info] always returns a string: what its body returns,
    or, for every exception raised inside it, "Error: " followed by the
    exception's text.  A column absent from the table gives the text of the
    [KeyError]; a cell that cannot be cast to float during a numeric
    statistic gives the text of the conversion error, which names such a
    cell. *)
Theorem extract_info_total :
  (forall (F : Float64) (sp : spacy.module) (df : DataFrame) (column prompt : string),
      (forall text, (doc ← parse sp prompt; answer df column prompt) = Ok text ->
                    extract_info sp df column prompt = text)
      /\ (forall e, (doc ← parse sp prompt; answer df column prompt) = Raise e ->
                    extract_info sp df column prompt = "Error: " ++ str_of_exception e
                    /\ contains (str_of_exception e) (extract_info sp df column prompt)
                       = true))
  /\ (forall (F : Float64) (sp : spacy.module) (df : DataFrame) (column prompt : string)
             (st : statistic),
         parse sp prompt = Ok tt ->
         first_match (lower prompt) = Some st ->
         df !! column = None ->
         extract_info sp df column prompt = "Error: " ++ repr column)
  /\ (forall (F : Float64) (sp : spacy.module) (df : DataFrame) (column prompt : string)
             (st : statistic) (s : Series),
         parse sp prompt = Ok tt ->
         first_match (lower prompt) = Some st ->
         st <> Count ->
         df !! column = Some s ->
         (exists t, In (Some t) s /\ float_of_str t = None) ->
         exists t, In (Some t) s /\ float_of_str t = None
                   /\ extract_info sp df column prompt
                      = "Error: could not convert string to float: " ++ repr t).
Proof.
  split; [|split].
  - intros F sp df column prompt. unfold extract_info. split.
    + now intros text ->.
    + intros e ->. split; [reflexivity|].
      apply (contains_suffix (str_of_exception e) "Error: ").
  - intros F sp df column prompt st Hp Hst Hcol.
    rewrite (extract_info_evaluate _ _ _ _ Hp). unfold evaluate. rewrite Hst.
    unfold compute, getitem. now rewrite Hcol.
  - intros F sp df column prompt st s Hp Hst Hnc Hcol Hbad.
    destruct (astype_float_raises s Hbad) as (t & Hin & Ht & Hraise).
    exists t. repeat split; [assumption..|].
    rewrite (extract_info_evaluate _ _ _ _ Hp). unfold evaluate. rewrite Hst.
    unfold compute, getitem. rewrite Hcol.
    unfold mbind, result_bind, Py.bind.
    destruct st; try congruence; unfold value_text, mbind, result_bind, Py.bind;
      now rewrite Hraise.
Qed.

Lemma extract_info_total_witness :
  parse spacy.installed "What is the lowest?" = Ok tt
  /\ first_match (lower "What is the lowest?") = Some Minimum
  /\ ages !! "Height" = None
  /\ extract_info (F := binary64) spacy.installed ages "Height" "What is the lowest?"
     = "Error: 'Height'"
  /\ Minimum <> Count
  /\ names !! "Name" = Some [Some "abc"; None; Some "x y"]
  /\ (exists t, In (Some t) [Some "abc"; None; Some "x y"] /\ Binary64.of_str t = None)
  /\ (exists t, In (Some t) [Some "abc"; None; Some "x y"] /\ Binary64.of_str t = None
                /\ extract_info (F := binary64) spacy.installed names "Name"
                     "What is the lowest?"
                   = "Error: could not convert string to float: " ++ repr t).
Proof.
  assert (Hbad : exists t, In (Some t) [Some "abc"; None; Some "x y"]
                           /\ Binary64.of_str t = None)
    by (exists "abc"; split; [now left|reflexivity]).
  split; [reflexivity|]. split; [reflexivity|]. split; [reflexivity|].
  split.
  { exact (proj1 (proj2 extract_info_total) binary64 spacy.installed ages "Height"
             "What is the lowest?" Minimum eq_refl eq_refl eq_refl). }
  split; [discriminate|]. split; [reflexivity|]. split; [exact Hbad|].
  exact (proj2 (proj2 extract_info_total) binary64 spacy.installed names "Name"
           "What is the lowest?" Minimum _ eq_refl eq_refl
           ltac:(discriminate) eq_refl Hbad).
Defined.

(** A count query does not get the count when lines 44 and 45 raise.
    "Get the number of names" matches the count family alone; on a column
    with two non-null cells the result is the error of [spacy.load] when
    the model package is missing, and with the package installed "count"
    after 999996 spaces gets the refusal of the pipeline. *)
Lemma count_unparsed :
  (matches Count (lower "Get the number of names") = true
   /\ first_match (lower "Get the number of names") = Some Count
   /\ names !! "Name" = Some [Some "abc"; None; Some "x y"]
   /\ count [Some "abc"; None; Some "x y"] = 2
   /\ extract_info (F := binary64) spacy.missing names "Name" "Get the number of names"
      = "Error: [E050] Can't find model 'en_core_web_sm'. It doesn't seem to be a Python package or a valid path to a data directory."
   /\ extract_info (F := binary64) spacy.missing names "Name" "Get the number of names"
      <> "The count of values in column 'Name' is 2.")
  /\ (matches Count (lower long_count) = true
      /\ (forall st', rank st' < rank Count -> matches st' (lower long_count) = false)
      /\ extract_info (F := binary64) spacy.installed names "Name" long_count
         = "Error: " ++ spacy.E088 1000001
      /\ extract_info (F := binary64) spacy.installed names "Name" long_count
         <> "The count of values in column 'Name' is 2.").
Proof.
  assert (Hlong : extract_info (F := binary64) spacy.installed names "Name" long_count
                  = "Error: " ++ spacy.E088 1000001).
  { unfold long_count.
    rewrite long_prompt_refused; rewrite long_prompt_length; reflexivity. }
  split.
  - split; [reflexivity|]. split; [reflexivity|]. split; [reflexivity|].
    split; [reflexivity|]. split; [apply missing_model|].
    rewrite missing_model. discriminate.
  - split; [unfold long_count; now rewrite matches_pad|]. split.
    + intros st' Hlt. unfold long_count. rewrite matches_pad.
      destruct st'; simpl in Hlt; first [lia | reflexivity].
    + split; [exact Hlong|]. rewrite Hlong. discriminate.
Qed.

(** C6 (amended). In a run in which the parse step of lines 44 and 45
    returns, a prompt that matches the count family ("count" or "number
    of") and no earlier family gets the number of non-null cells of the
    column, with no cell cast to float: the result is the same for every
    float conversion, and text cells are counted like any other. *)
Theorem count_without_cast :
  (forall (F : Float64) (sp : spacy.module) (df : DataFrame) (column prompt : string)
          (s : Series),
      parse sp prompt = Ok tt ->
      matches Count (lower prompt) = true ->
      (forall st', rank st' < rank Count -> matches st' (lower prompt) = false) ->
      df !! column = Some s ->
      extract_info sp df column prompt
      = "The count of values in column '" ++ column ++ "' is "
          ++ str_of_nat (count s) ++ ".")
  /\ (count [] = 0
      /\ (forall t s, count (Some t :: s) = S (count s))
      /\ (forall s, count (None :: s) = count s))
  /\ (extract_info (F := binary64) spacy.installed names "Name" "Get the number of names"
      = "The count of values in column 'Name' is 2."
      /\ extract_info (F := binary64) spacy.installed names "Name" "Get the lowest name"
         = "Error: could not convert string to float: 'abc'").
Proof.
  split; [|split].
  - intros F sp df column prompt s Hp Hm Hlt Hcol.
    rewrite (extract_info_evaluate _ _ _ _ Hp). unfold evaluate.
    rewrite (first_match_intro _ _ Hm Hlt).
    unfold compute, getitem. now rewrite Hcol.
  - repeat split.
  - split; vm_compute; reflexivity.
Qed.

Lemma count_without_cast_witness :
  parse spacy.installed "COUNT the entries" = Ok tt
  /\ matches Count (lower "COUNT the entries") = true
  /\ (forall st', rank st' < rank Count -> matches st' (lower "COUNT the entries") = false)
  /\ names !! "Name" = Some [Some "abc"; None; Some "x y"]
  /\ extract_info (F := binary64) spacy.installed names "Name" "COUNT the entries"
     = "The count of values in column 'Name' is 2.".
Proof.
  assert (Hlt : forall st', rank st' < rank Count ->
                  matches st' (lower "COUNT the entries") = false)
    by (intros []; simpl; first [lia | reflexivity]).
  split; [reflexivity|]. split; [reflexivity|]. split; [exact Hlt|]. split; [reflexivity|].
  exact (proj1 count_without_cast binary64 spacy.installed names "Name"
           "COUNT the entries" _ eq_refl eq_refl Hlt eq_refl).
Defined.

(** ** Letter case *)

Lemma lower_swapcase (c : ascii) : lower_char (swapcase_char c) = lower_char c.
Proof. destruct c as [[] [] [] [] [] [] [] []]; reflexivity. Qed.

Lemma case_variant_lower (p q : string) : case_variant p q -> lower p = lower q.
Proof.
  induction 1 as [|c p q _ IH|c p q _ IH]; simpl.
  - reflexivity.
  - now rewrite IH.
  - now rewrite IH, lower_swapcase.
Qed.

Lemma case_variant_length (p q : string) :
  case_variant p q -> String.length p = String.length q.
Proof. induction 1; simpl; congruence. Qed.

Lemma case_variantb_sound (p q : string) : case_variantb p q = true -> case_variant p q.
Proof.
  revert q; induction p as [|a p IH]; intros [|b q]; simpl; try discriminate.
  - constructor.
  - intros [Hc Hr]%andb_true_iff. apply IH in Hr.
    apply orb_true_iff in Hc as [Hc|Hc]; apply Ascii.eqb_eq in Hc; subst b;
      now constructor.
Qed.

(** With the pipeline installed the parse step cannot tell case variants
    apart: it looks at the length of the text only. *)
Lemma parse_case_variant (p q : string) :
  case_variant p q -> parse spacy.installed p = parse spacy.installed q.
Proof.
  intros Hv. unfold parse. cbn [spacy.load spacy.installed].
  change (String.eqb "en_core_web_sm" "en_core_web_sm") with true. cbn iota.
  unfold mbind, result_bind, Py.bind, spacy.en_core_web_sm.
  now rewrite (case_variant_length _ _ Hv).
Qed.

Lemma answer_case_variant {F : Float64} (df : DataFrame) (column p q : string) :
  case_variant p q -> answer df column p = answer df column q.
Proof. intros Hv. unfold answer. now rewrite (case_variant_lower _ _ Hv). Qed.

(** Line 46 folds the case of a letter to its lower-case form only, and
    two texts that are equal in upper case need not be equal in lower
    case.  "minimum" written with dotless i has the upper-case form
    "MINIMUM", and "sum" written with a long s the upper-case form "SUM";
    both are their own lower-case forms and hold no trigger, so they get
    the guidance text where "MINIMUM" and "SUM" get a statistic. *)
Lemma dotless_i_not_folded :
  (upper dotless_minimum = Some "MINIMUM"
   /\ upper "MINIMUM" = Some "MINIMUM"
   /\ lower dotless_minimum = dotless_minimum
   /\ extract_info (F := binary64) spacy.installed ages "Age" "MINIMUM"
      = "The minimum value in column 'Age' is 10.0."
   /\ extract_info (F := binary64) spacy.installed ages "Age" dotless_minimum
      = unsupported
   /\ extract_info (F := binary64) spacy.installed ages "Age" "MINIMUM"
      <> extract_info (F := binary64) spacy.installed ages "Age" dotless_minimum)
  /\ (upper long_s_sum = Some "SUM"
      /\ upper "SUM" = Some "SUM"
      /\ lower long_s_sum = long_s_sum
      /\ extract_info (F := binary64) spacy.installed ages "Age" "SUM"
         = "The sum of values in column 'Age' is 60.0."
      /\ extract_info (F := binary64) spacy.installed ages "Age" long_s_sum
         = unsupported
      /\ extract_info (F := binary64) spacy.installed ages "Age" "SUM"
         <> extract_info (F := binary64) spacy.installed ages "Age" long_s_sum).
Proof.
  split; (repeat (split; [vm_compute; reflexivity|])); vm_compute; discriminate.
Qed.

(** C8 (amended). Matching ignores the case of the letters A to Z: a
    prompt and any variant of it that differs only in the case of such
    letters get the same result, for every table and column, in every run
    with the model installed, and in general whenever the parse step of
    lines 44 and 45 does the same on both.  "MINIMUM", "Minimum" and
    "minimum" take the same branch. *)
Theorem case_insensitive :
  (forall (F : Float64) (sp : spacy.module) (df : DataFrame) (column p q : string),
      case_variant p q ->
      parse sp p = parse sp q ->
      extract_info sp df column p = extract_info sp df column q)
  /\ (forall (F : Float64) (df : DataFrame) (column p q : string),
        case_variant p q ->
        extract_info spacy.installed df column p
        = extract_info spacy.installed df column q)
  /\ (case_variant "minimum" "MINIMUM"
      /\ case_variant "minimum" "Minimum"
      /\ first_match (lower "MINIMUM") = Some Minimum
      /\ first_match (lower "Minimum") = Some Minimum
      /\ first_match (lower "minimum") = Some Minimum).
Proof.
  split; [|split].
  - intros F sp df column p q Hv Hp. unfold extract_info.
    now rewrite Hp, (answer_case_variant _ _ _ _ Hv).
  - intros F df column p q Hv. unfold extract_info.
    now rewrite (parse_case_variant _ _ Hv), (answer_case_variant _ _ _ _ Hv).
  - repeat split; try reflexivity; now apply case_variantb_sound.
Qed.

Lemma case_insensitive_witness :
  case_variant "What is the minimum?" "WHAT IS THE Minimum?"
  /\ parse spacy.installed "What is the minimum?"
     = parse spacy.installed "WHAT IS THE Minimum?"
  /\ extract_info (F := binary64) spacy.installed ages "Age" "What is the minimum?"
     = extract_info (F := binary64) spacy.installed ages "Age" "WHAT IS THE Minimum?".
Proof.
  assert (Hv : case_variant "What is the minimum?" "WHAT IS THE Minimum?")
    by (apply case_variantb_sound; reflexivity).
  split; [exact Hv|]. split; [reflexivity|].
  exact (proj1 case_insensitive binary64 spacy.installed ages "Age" _ _ Hv eq_refl).
Defined.

(** ** The parse step *)

Lemma long_prompt_example :
  extract_info (F := binary64) spacy.installed ages "Age"
    (pad (N.to_nat 999994) "minimum")
  = "Error: " ++ spacy.E088 1000001.
Proof.
  assert (Hlen : N.of_nat (String.length (pad (N.to_nat 999994) "minimum")) = 1000001%N)
    by (rewrite length_pad, Nat2N.inj_add, N2Nat.id; reflexivity).
  rewrite long_prompt_refused; rewrite Hlen; reflexivity.
Qed.

(** Without the parse step the length of the prompt does not matter. *)
Lemma long_prompt_answered :
  extract_info_without_parse (F := binary64) ages "Age"
    (pad (N.to_nat 999994) "minimum")
  = "The minimum value in column 'Age' is 10.0.".
Proof.
  unfold extract_info_without_parse, answer.
  rewrite lower_pad, (contains_pad "minimum" _ (lower "minimum") eq_refl).
  cbn [orb]. vm_compute. reflexivity.
Qed.

(** The parse step is observable.  With the model package missing,
    [extract_info] reports the failure of [spacy.load] where the function
    without lines 44 and 45 answers the query; with the package installed,
    it reports the refusal of a prompt of 1000001 characters where the
    function without the two lines answers it. *)
Lemma parse_step_observable :
  (extract_info (F := binary64) spacy.missing ages "Age" "What is the average?"
   = "Error: [E050] Can't find model 'en_core_web_sm'. It doesn't seem to be a Python package or a valid path to a data directory."
   /\ extract_info_without_parse (F := binary64) ages "Age" "What is the average?"
      = "The average value in column 'Age' is 20.0."
   /\ extract_info (F := binary64) spacy.missing ages "Age" "What is the average?"
      <> extract_info_without_parse (F := binary64) ages "Age" "What is the average?")
  /\ (extract_info (F := binary64) spacy.installed ages "Age"
        (pad (N.to_nat 999994) "minimum")
      <> extract_info_without_parse (F := binary64) ages "Age"
           (pad (N.to_nat 999994) "minimum")).
Proof.
  split.
  - repeat split; [vm_compute; reflexivity..|].
    vm_compute. discriminate.
  - rewrite long_prompt_example, long_prompt_answered. discriminate.
Qed.

(** C9 (amended). When the model loads and the parse of the prompt
    returns, [extract_info] gives the same result as the function with
    lines 44 and 45 removed; when either raises, [extract_info] returns
    "Error: " followed by the text of that exception, for every table,
    column and prompt. *)
Theorem parse_step_effect :
  forall (F : Float64) (sp : spacy.module) (df : DataFrame) (column prompt : string),
    (parse sp prompt = Ok tt ->
     extract_info sp df column prompt = extract_info_without_parse df column prompt)
    /\ (forall e, parse sp prompt = Raise e ->
                  extract_info sp df column prompt = "Error: " ++ str_of_exception e).
Proof.
  intros F sp df column prompt. split.
  - apply extract_info_parsed.
  - intros e He. unfold extract_info, mbind, result_bind, Py.bind. now rewrite He.
Qed.

Lemma parse_step_effect_witness :
  parse spacy.installed "What is the average?" = Ok tt
  /\ extract_info (F := binary64) spacy.installed ages "Age" "What is the average?"
     = extract_info_without_parse (F := binary64) ages "Age" "What is the average?".
Proof.
  split; [reflexivity|].
  exact (proj1 (parse_step_effect binary64 spacy.installed ages "Age"
                  "What is the average?") eq_refl).
Defined.

(** ** The values and the wording of the results *)

Lemma astype_float_returns {F : Float64} (s : Series) :
  (forall t, In (Some t) s -> float_of_str t <> None) ->
  exists xs, astype_float s = Ok xs /\ List.length xs = List.length s.
Proof.
  induction s as [|c s IH]; intros Hs; [now exists []|].
  destruct IH as (xs & Hxs & Hlen); [intros t Ht; apply Hs; now right|].
  cbn [astype_float]. unfold mbind, result_bind, Py.bind. rewrite Hxs.
  destruct c as [t|]; cbn [cell_to_float].
  - destruct (float_of_str t) as [x|] eqn:Ht.
    + exists (x :: xs). split; [reflexivity|]. simpl. congruence.
    + exfalso. apply (Hs t); [now left|assumption].
  - exists (NaN :: xs). split; [reflexivity|]. simpl. congruence.
Qed.

(** Which reduction a prompt reaches: when every cell of the column casts,
    the result holds the count of the column, or the text of the float64
    reduction of the selected family over the cast column, the standard
    deviation and the variance with [ddof = 1]. *)
Lemma statistic_of_column {F : Float64} (sp : spacy.module) (df : DataFrame)
    (column prompt : string) (st : statistic) (s : Series) :
  parse sp prompt = Ok tt ->
  first_match (lower prompt) = Some st ->
  df !! column = Some s ->
  (forall t, In (Some t) s -> float_of_str t <> None) ->
  exists xs,
    astype_float s = Ok xs
    /\ extract_info sp df column prompt
       = message st column
           match st with
           | Minimum => str_of_float (nanmin xs)
           | Maximum => str_of_float (nanmax xs)
           | Average => str_of_float (nanmean xs)
           | Sum => str_of_float (nansum xs)
           | Count => str_of_nat (count s)
           | Median => str_of_float (nanmedian xs)
           | StdDev => str_of_float (nanstd 1 xs)
           | Variance => str_of_float (nanvar 1 xs)
           end.
Proof.
  intros Hp Hst Hcol Hs.
  destruct (astype_float_returns s Hs) as (xs & Hxs & _).
  exists xs. split; [assumption|].
  rewrite (extract_info_evaluate _ _ _ _ Hp). unfold evaluate. rewrite Hst.
  unfold compute, getitem. rewrite Hcol.
  unfold mbind, result_bind, Py.bind.
  destruct st; unfold value_text, mbind, result_bind, Py.bind;
    rewrite ?Hxs; reflexivity.
Qed.





(** The values are those of double arithmetic, rounding included: the
    mean of 0.1, 0.2 and 0.3 is printed with its rounding error. *)
Lemma mean_of_tenths :
  extract_info (F := binary64) spacy.installed tenths "X" "What is the mean?"
  = "The average value in column 'X' is 0.20000000000000004.".
Proof. vm_compute. reflexivity. Qed.

(** The wording of the spec fails for the sum: no value makes the result
    read "The sum value in column 'Age' is ...". *)
Lemma sum_wording :
  extract_info (F := binary64) spacy.installed ages "Age" "What is the sum?"
  = "The sum of values in column 'Age' is 60.0."
  /\ ~ exists value,
         extract_info (F := binary64) spacy.installed ages "Age" "What is the sum?"
         = spec_message Sum "Age" value.
Proof.
  assert (He : extract_info (F := binary64) spacy.installed ages "Age" "What is the sum?"
               = "The sum of values in column 'Age' is 60.0.")
    by (vm_compute; reflexivity).
  split; [exact He|].
  intros [value Hv]. rewrite He in Hv. discriminate Hv.
Qed.

(** C2 (amended). A successful computation is worded per statistic:
    "The <name> value in column '<column>' is <value>." for minimum,
    maximum, average and median, and "The <name> of values in column
    '<column>' is <value>." for sum, count, standard deviation and variance
    (stated for a run in which the parse step returns).  For the table
    {"Age": ["10","20","30"]} and "What is the average?" the result is
    "The average value in column 'Age' is 20.0.". *)
Theorem result_wording :
  (forall (F : Float64) (sp : spacy.module) (df : DataFrame) (column prompt : string)
          (st : statistic) (s : Series) (value : string),
      parse sp prompt = Ok tt ->
      first_match (lower prompt) = Some st ->
      df !! column = Some s ->
      value_text st s = Ok value ->
      extract_info sp df column prompt =
      match st with
      | Minimum => "The minimum value in column '" ++ column ++ "' is " ++ value ++ "."
      | Maximum => "The maximum value in column '" ++ column ++ "' is " ++ value ++ "."
      | Average => "The average value in column '" ++ column ++ "' is " ++ value ++ "."
      | Median => "The median value in column '" ++ column ++ "' is " ++ value ++ "."
      | Sum => "The sum of values in column '" ++ column ++ "' is " ++ value ++ "."
      | Count => "The count of values in column '" ++ column ++ "' is " ++ value ++ "."
      | StdDev =>
          "The standard deviation of values in column '" ++ column ++ "' is " ++ value ++ "."
      | Variance => "The variance of values in column '" ++ column ++ "' is " ++ value ++ "."
      end)
  /\ extract_info (F := binary64) spacy.installed ages "Age" "What is the average?"
     = "The average value in column 'Age' is 20.0.".
Proof.
  split.
  - intros F sp df column prompt st s value Hp Hst Hcol Hv.
    rewrite (extract_info_evaluate _ _ _ _ Hp). unfold evaluate. rewrite Hst.
    unfold compute, getitem. rewrite Hcol.
    unfold mbind, result_bind, Py.bind. rewrite Hv.
    destruct st; reflexivity.
  - vm_compute. reflexivity.
Qed.

Lemma result_wording_witness :
  parse spacy.installed "Show the std dev of the ages" = Ok tt
  /\ first_match (lower "Show the std dev of the ages") = Some StdDev
  /\ ages !! "Age" = Some [Some "10"; Some "20"; Some "30"]
  /\ value_text (F := binary64) StdDev [Some "10"; Some "20"; Some "30"] = Ok "10.0"
  /\ extract_info (F := binary64) spacy.installed ages "Age" "Show the std dev of the ages"
     = "The standard deviation of values in column 'Age' is 10.0.".
Proof.
  assert (Hv : value_text (F := binary64) StdDev [Some "10"; Some "20"; Some "30"]
               = Ok "10.0") by (vm_compute; reflexivity).
  split; [reflexivity|]. split; [reflexivity|]. split; [reflexivity|]. split; [exact Hv|].
  exact (proj1 result_wording binary64 spacy.installed ages "Age"
           "Show the std dev of the ages" StdDev _ "10.0" eq_refl eq_refl eq_refl Hv).
Defined.

(** ** The sheet loader *)

Lemma frame_no_rows (header : list string) (label : string) :
  In label header -> frame [] header !! label = Some [].
Proof.
  unfold frame.
  change (imap _ header) with (imap (const (fun l : string => (l, @nil cell))) header).
  rewrite imap_const.
  induction header as [|h header IH]; intros Hin; [destruct Hin|].
  cbn [fmap list_fmap list_to_map foldr].
  destruct (decide (h = label)) as [->|Hne].
  - apply lookup_insert_eq.
  - rewrite lookup_insert_ne by assumption.
    destruct Hin as [?|Hin]; [congruence|]. now apply IH.
Qed.

Lemma frame_no_rows_other (header : list string) (label : string) :
  ~ In label header -> frame [] header !! label = None.
Proof.
  unfold frame.
  change (imap _ header) with (imap (const (fun l : string => (l, @nil cell))) header).
  rewrite imap_const.
  induction header as [|h header IH]; intros Hin; [apply lookup_empty|].
  cbn [fmap list_fmap list_to_map foldr].
  rewrite lookup_insert_ne by (intros Heq; apply Hin; left; exact Heq).
  apply IH. intros Hl. apply Hin. now right.
Qed.

(** A failed request is reported as a connection error, with the text of
    the exception. *)
Lemma connection_failure (api : sheets.client) (spreadsheet_id range_name : string)
    (e : Exception) :
  api spreadsheet_id range_name = Raise e ->
  get_google_sheet api spreadsheet_id range_name = failure (str_of_exception e).
Proof. intros He. unfold get_google_sheet. now rewrite He. Qed.

(** A grid holding only a header row has no data rows, and the loader
    returns a table for it, not the "No data found" signal. *)
Lemma header_only_grid :
  data_rows [["Name"; "Age"]] = 0
  /\ get_google_sheet (serving (holding [["Name"; "Age"]])) "sheet-id" "Sheet1!A1:B1"
     = ([], Some (frame [] ["Name"; "Age"]))
  /\ get_google_sheet (serving (holding [["Name"; "Age"]])) "sheet-id" "Sheet1!A1:B1"
     <> no_data.
Proof.
  split; [reflexivity|]. split; [reflexivity|]. discriminate.
Qed.

(** C3 (amended). For a grid with no rows at all (no ['values'] in the
    answer, or an empty list) the loader returns the "No data found"
    signal, which differs from every hard failure; for a grid holding only
    a header row it reports nothing and returns an ordinary table with the
    header's columns and no rows. *)
Theorem no_data_signal :
  forall (api : sheets.client) (spreadsheet_id range_name : string) (r : sheets.response),
    api spreadsheet_id range_name = Ok r ->
    (default [] (sheets.values r) = [] ->
     get_google_sheet api spreadsheet_id range_name = no_data
     /\ forall msg, get_google_sheet api spreadsheet_id range_name <> failure msg)
    /\ (forall header,
          default [] (sheets.values r) = [header] ->
          get_google_sheet api spreadsheet_id range_name = ([], Some (frame [] header))
          /\ (forall label, In label header -> frame [] header !! label = Some [])
          /\ (forall label, ~ In label header -> frame [] header !! label = None)).
Proof.
  intros api spreadsheet_id range_name r Hr. unfold get_google_sheet.
  rewrite Hr. cbn [mbind result_bind Py.bind]. split.
  - intros ->. split; [reflexivity|]. intros msg. discriminate.
  - intros header ->. split; [reflexivity|].
    split; [apply frame_no_rows|apply frame_no_rows_other].
Qed.

Lemma no_data_signal_witness :
  serving blank "sheet-id" "Sheet1!A1:B9" = Ok blank
  /\ default [] (sheets.values blank) = []
  /\ get_google_sheet (serving blank) "sheet-id" "Sheet1!A1:B9" = no_data
  /\ serving (holding []) "sheet-id" "Sheet1!A1:B9" = Ok (holding [])
  /\ default [] (sheets.values (holding [])) = []
  /\ get_google_sheet (serving (holding [])) "sheet-id" "Sheet1!A1:B9" = no_data.
Proof.
  split; [reflexivity|]. split; [reflexivity|].
  split.
  { exact (proj1 (proj1 (no_data_signal (serving blank)
                           "sheet-id" "Sheet1!A1:B9" blank eq_refl) eq_refl)). }
  split; [reflexivity|]. split; [reflexivity|].
  exact (proj1 (proj1 (no_data_signal (serving (holding []))
                         "sheet-id" "Sheet1!A1:B9" (holding []) eq_refl) eq_refl)).
Defined.


(** * Further properties *)

(** ** [get_google_sheet] on a grid with data rows *)

Lemma get_google_sheet_grid (api : sheets.client) (spreadsheet_id range_name : string)
    (r : sheets.response) (header : list string) (data : list (list string)) :
  api spreadsheet_id range_name = Ok r ->
  default [] (sheets.values r) = header :: data ->
  get_google_sheet api spreadsheet_id range_name
  = match DataFrame_new data header with
    | Ok df => ([], Some df)
    | Raise e => failure (str_of_exception e)
    end.
Proof.
  intros Hr Hv. unfold get_google_sheet. rewrite Hr.
  cbn [mbind result_bind Py.bind]. rewrite Hv.
  now destruct (DataFrame_new data header).
Qed.

Lemma width_bounds (data : list (list string)) :
  Forall (fun row => List.length row <= width data) data.
Proof.
  induction data as [|row data IH]; constructor; cbn [width foldr].
  - apply Nat.le_max_l.
  - eapply Forall_impl; [exact IH|]. cbn beta. intros row' Hle.
    change (foldr _ 0 data) with (width data). lia.
Qed.

Lemma width_attained (data : list (list string)) :
  data <> [] -> Exists (fun row => List.length row = width data) data.
Proof.
  induction data as [|row data IH]; [congruence|]. intros _.
  cbn [width foldr]. change (foldr _ 0 data) with (width data).
  destruct (Nat.max_spec (List.length row) (width data)) as [[Hlt ->]|[Hle ->]].
  - destruct data as [|row' data']; [cbn in Hlt; lia|].
    right. apply IH. congruence.
  - now left.
Qed.

Lemma width_eq_iff (data : list (list string)) (n : nat) :
  data <> [] ->
  width data = n <->
  Forall (fun row => List.length row <= n) data
  /\ Exists (fun row => List.length row = n) data.
Proof.
  intros Hne. split.
  - intros <-. split; [apply width_bounds|now apply width_attained].
  - intros [Hall Hex].
    assert (Hle : width data <= n).
    { clear Hex Hne. induction Hall as [|row data Hrow _ IH]; cbn [width foldr]; [lia|].
      change (foldr _ 0 data) with (width data). lia. }
    apply Exists_exists in Hex as (row & Hin & Hrow).
    pose proof (width_bounds data) as Hb.
    rewrite Forall_forall in Hb. specialize (Hb row Hin). lia.
Qed.

(** Every call ends in one of two ways: a table and nothing reported, or
    no table and exactly one text passed to [st.error], which is "No data
    found." or begins with "Error connecting to Google Sheets: ". *)
Theorem table_or_one_message :
  forall (api : sheets.client) (spreadsheet_id range_name : string),
    (exists df, get_google_sheet api spreadsheet_id range_name = ([], Some df))
    \/ get_google_sheet api spreadsheet_id range_name = no_data
    \/ exists msg, get_google_sheet api spreadsheet_id range_name = failure msg.
Proof.
  intros api spreadsheet_id range_name.
  destruct (api spreadsheet_id range_name) as [r|e] eqn:Hr.
  - destruct (default [] (sheets.values r)) as [|header data] eqn:Hv.
    + right; left. unfold get_google_sheet. rewrite Hr.
      cbn [mbind result_bind Py.bind]. now rewrite Hv.
    + rewrite (get_google_sheet_grid _ _ _ _ _ _ Hr Hv).
      destruct (DataFrame_new data header) as [df|e]; [left|right; right]; eauto.
  - right; right. exists (str_of_exception e).
    unfold get_google_sheet. now rewrite Hr.
Qed.

(** A grid with data rows loads exactly when no data row is longer than
    the header and one is as long: otherwise the call reports a connection
    error that names the two column counts, and returns no table. *)
Theorem grid_loads_iff :
  forall (api : sheets.client) (spreadsheet_id range_name : string)
         (r : sheets.response) (header : list string) (data : list (list string)),
    api spreadsheet_id range_name = Ok r ->
    default [] (sheets.values r) = header :: data ->
    data <> [] ->
    (Forall (fun row => List.length row <= List.length header) data
     /\ Exists (fun row => List.length row = List.length header) data ->
     get_google_sheet api spreadsheet_id range_name = ([], Some (frame data header)))
    /\ (~ (Forall (fun row => List.length row <= List.length header) data
           /\ Exists (fun row => List.length row = List.length header) data) ->
        get_google_sheet api spreadsheet_id range_name
        = failure (str_of_nat (List.length header) ++ " columns passed, passed data had "
                     ++ str_of_nat (width data) ++ " columns")).
Proof.
  intros api spreadsheet_id range_name r header data Hr Hv Hne.
  rewrite (get_google_sheet_grid _ _ _ _ _ _ Hr Hv).
  unfold DataFrame_new. destruct data as [|row data]; [congruence|].
  destruct (Nat.eqb_spec (List.length header) (width (row :: data))) as [Heq|Hneq].
  - split; [reflexivity|]. intros Hn. exfalso. apply Hn.
    apply width_eq_iff; [assumption|congruence].
  - split; [|reflexivity]. intros Hy. exfalso. apply Hneq.
    symmetry. now apply width_eq_iff.
Qed.

Lemma grid_loads_iff_witness :
  serving (holding [["Name"; "Age"]; ["Ann"]; ["Bob"]]) "sheet-id" "Sheet1!A1:B3"
  = Ok (holding [["Name"; "Age"]; ["Ann"]; ["Bob"]])
  /\ default [] (sheets.values (holding [["Name"; "Age"]; ["Ann"]; ["Bob"]]))
     = ["Name"; "Age"] :: [["Ann"]; ["Bob"]]
  /\ [["Ann"]; ["Bob"]] <> ([] : list (list string))
  /\ ~ (Forall (fun row => List.length row <= List.length ["Name"; "Age"])
          [["Ann"]; ["Bob"]]
        /\ Exists (fun row => List.length row = List.length ["Name"; "Age"])
             [["Ann"]; ["Bob"]])
  /\ get_google_sheet (serving (holding [["Name"; "Age"]; ["Ann"]; ["Bob"]]))
       "sheet-id" "Sheet1!A1:B3"
     = failure "2 columns passed, passed data had 1 columns".
Proof.
  assert (Hn : ~ (Forall (fun row => List.length row <= List.length ["Name"; "Age"])
                    [["Ann"]; ["Bob"]]
                  /\ Exists (fun row => List.length row = List.length ["Name"; "Age"])
                       [["Ann"]; ["Bob"]])).
  { intros [_ Hex]. apply Exists_exists in Hex as (row & Hin & Hrow).
    apply list_elem_of_In in Hin. simpl in Hin.
    destruct Hin as [<-|[<-|[]]]; simpl in Hrow; lia. }
  split; [reflexivity|]. split; [reflexivity|]. split; [discriminate|]. split; [exact Hn|].
  exact (proj2 (grid_loads_iff (serving (holding [["Name"; "Age"]; ["Ann"]; ["Bob"]]))
                  "sheet-id" "Sheet1!A1:B3" _ ["Name"; "Age"] [["Ann"]; ["Bob"]]
                  eq_refl eq_refl ltac:(discriminate)) Hn).
Defined.

(** ** The table of a loaded grid *)

Lemma frame_labels (data : list (list string)) (header : list string) :
  (imap (fun j label => (label, (fun row : list string => row !! j) <$> data)) header).*1
  = header.
Proof.
  rewrite fmap_imap.
  change (imap _ header) with (imap (const (@id string)) header).
  rewrite imap_const. apply list_fmap_id.
Qed.

Lemma frame_lookup (data : list (list string)) (header : list string)
    (j : nat) (label : string) :
  NoDup header ->
  header !! j = Some label ->
  frame data header !! label = Some ((fun row : list string => row !! j) <$> data).
Proof.
  intros Hnd Hj. unfold frame. apply elem_of_list_to_map_1.
  - now rewrite frame_labels.
  - apply (elem_of_lookup_imap_2
             (fun j label => (label, (fun row : list string => row !! j) <$> data))
             header label j Hj).
Qed.

Lemma frame_rows (data : list (list string)) (header : list string)
    (label : string) (s : Series) :
  frame data header !! label = Some s -> List.length s = List.length data.
Proof.
  unfold frame. intros Hs. apply elem_of_list_to_map_2 in Hs.
  apply elem_of_lookup_imap_1 in Hs as (j & l & [= _ ->] & _).
  apply length_fmap.
Qed.

Lemma loaded_frame (api : sheets.client) (spreadsheet_id range_name : string)
    (r : sheets.response) (reported : list string) (df : DataFrame) :
  api spreadsheet_id range_name = Ok r ->
  get_google_sheet api spreadsheet_id range_name = (reported, Some df) ->
  exists header data,
    default [] (sheets.values r) = header :: data /\ df = frame data header.
Proof.
  intros Hr Hg. destruct (default [] (sheets.values r)) as [|header data] eqn:Hv.
  - unfold get_google_sheet in Hg. rewrite Hr in Hg.
    cbn [mbind result_bind Py.bind] in Hg. rewrite Hv in Hg. discriminate.
  - exists header, data. split; [reflexivity|].
    rewrite (get_google_sheet_grid _ _ _ _ _ _ Hr Hv) in Hg.
    unfold DataFrame_new in Hg. destruct data as [|row data].
    + now injection Hg as _ <-.
    + destruct (List.length header =? width (row :: data))%nat;
        [now injection Hg as _ <-|discriminate].
Qed.

Lemma grid_loads (api : sheets.client) (spreadsheet_id range_name : string)
    (r : sheets.response) (header : list string) (data : list (list string)) :
  api spreadsheet_id range_name = Ok r ->
  default [] (sheets.values r) = header :: data ->
  (data = [] \/ List.length header = width data) ->
  get_google_sheet api spreadsheet_id range_name = ([], Some (frame data header)).
Proof.
  intros Hr Hv Hw.
  rewrite (get_google_sheet_grid _ _ _ _ _ _ Hr Hv). unfold DataFrame_new.
  destruct data as [|row data]; [reflexivity|].
  destruct Hw as [|Hw]; [discriminate|].
  apply Nat.eqb_eq in Hw. now rewrite Hw.
Qed.

(** Every column of a table that [get_google_sheet] returns has one cell
    per data row of the grid, whatever the lengths of the rows. *)
Theorem columns_share_row_count :
  forall (api : sheets.client) (spreadsheet_id range_name : string)
         (r : sheets.response) (reported : list string) (df : DataFrame)
         (label : string) (s : Series),
    api spreadsheet_id range_name = Ok r ->
    get_google_sheet api spreadsheet_id range_name = (reported, Some df) ->
    df !! label = Some s ->
    List.length s = data_rows (default [] (sheets.values r)).
Proof.
  intros api spreadsheet_id range_name r reported df label s Hr Hg Hs.
  destruct (loaded_frame _ _ _ _ _ _ Hr Hg) as (header & data & -> & ->).
  unfold data_rows. cbn [tail]. now apply frame_rows in Hs.
Qed.

Lemma columns_share_row_count_witness :
  serving (holding [["Name"; "Age"]; ["Ann"; "31"]; ["Bob"]; ["Cy"; "27"]])
    "sheet-id" "Sheet1!A1:B4"
  = Ok (holding [["Name"; "Age"]; ["Ann"; "31"]; ["Bob"]; ["Cy"; "27"]])
  /\ get_google_sheet
       (serving (holding [["Name"; "Age"]; ["Ann"; "31"]; ["Bob"]; ["Cy"; "27"]]))
       "sheet-id" "Sheet1!A1:B4"
     = ([], Some (frame [["Ann"; "31"]; ["Bob"]; ["Cy"; "27"]] ["Name"; "Age"]))
  /\ frame [["Ann"; "31"]; ["Bob"]; ["Cy"; "27"]] ["Name"; "Age"] !! "Age"
     = Some [Some "31"; None; Some "27"]
  /\ List.length [Some "31"; None; Some "27"]
     = data_rows [["Name"; "Age"]; ["Ann"; "31"]; ["Bob"]; ["Cy"; "27"]].
Proof.
  split; [reflexivity|]. split; [reflexivity|]. split; [reflexivity|].
  exact (columns_share_row_count
           (serving (holding [["Name"; "Age"]; ["Ann"; "31"]; ["Bob"]; ["Cy"; "27"]]))
           "sheet-id" "Sheet1!A1:B4" _ [] _ "Age" [Some "31"; None; Some "27"]
           eq_refl eq_refl eq_refl).
Defined.

(** Insert and look up: when the header's labels are distinct and the grid
    loads, the column found under the label at position [j] holds cell [j]
    of every data row, in order, and [None] where a row ends before it. *)
Theorem loaded_column :
  forall (api : sheets.client) (spreadsheet_id range_name : string)
         (r : sheets.response) (header : list string) (data : list (list string))
         (j : nat) (label : string),
    api spreadsheet_id range_name = Ok r ->
    default [] (sheets.values r) = header :: data ->
    NoDup header ->
    (data = [] \/ List.length header = width data) ->
    header !! j = Some label ->
    exists df,
      get_google_sheet api spreadsheet_id range_name = ([], Some df)
      /\ df !! label = Some ((fun row : list string => row !! j) <$> data).
Proof.
  intros api spreadsheet_id range_name r header data j label Hr Hv Hnd Hw Hj.
  exists (frame data header).
  split; [now apply (grid_loads _ _ _ r)|now apply frame_lookup].
Qed.

Lemma loaded_column_witness :
  serving (holding [["Name"; "Age"]; ["Ann"; "31"]; ["Bob"]; ["Cy"; "27"]])
    "sheet-id" "Sheet1!A1:B4"
  = Ok (holding [["Name"; "Age"]; ["Ann"; "31"]; ["Bob"]; ["Cy"; "27"]])
  /\ NoDup ["Name"; "Age"]
  /\ List.length ["Name"; "Age"] = width [["Ann"; "31"]; ["Bob"]; ["Cy"; "27"]]
  /\ ["Name"; "Age"] !! 1 = Some "Age"
  /\ exists df,
       get_google_sheet
         (serving (holding [["Name"; "Age"]; ["Ann"; "31"]; ["Bob"]; ["Cy"; "27"]]))
         "sheet-id" "Sheet1!A1:B4" = ([], Some df)
       /\ df !! "Age" = Some [Some "31"; None; Some "27"].
Proof.
  assert (Hnd : NoDup ["Name"; "Age"]) by (apply (bool_decide_unpack _); vm_compute; exact I).
  split; [reflexivity|]. split; [exact Hnd|]. split; [reflexivity|]. split; [reflexivity|].
  exact (loaded_column
           (serving (holding [["Name"; "Age"]; ["Ann"; "31"]; ["Bob"]; ["Cy"; "27"]]))
           "sheet-id" "Sheet1!A1:B4" _ ["Name"; "Age"]
           [["Ann"; "31"]; ["Bob"]; ["Cy"; "27"]] 1 "Age"
           eq_refl eq_refl Hnd (or_intror eq_refl) eq_refl).
Defined.

(** ** A loaded table under [extract_info] *)

Lemma count_of_cells (j : nat) (data : list (list string)) :
  count ((fun row : list string => row !! j) <$> data)
  = List.length (filter (fun row : list string => j < List.length row) data).
Proof.
  unfold count. induction data as [|row data IH]; [reflexivity|].
  rewrite fmap_cons, (filter_cons (fun row : list string => j < List.length row)).
  destruct (row !! j) as [c|] eqn:Hc.
  - apply lookup_lt_Some in Hc. rewrite decide_True by assumption.
    cbn [filter list_filter]. rewrite decide_True by (now exists c).
    cbn [List.length]. f_equal. exact IH.
  - apply lookup_ge_None in Hc. rewrite decide_False by lia.
    cbn [filter list_filter]. rewrite decide_False by (intros [? [=]]).
    exact IH.
Qed.

(** Loading and counting compose: on a grid that loads, with distinct
    labels, a count query on the column at position [j] returns the number
    of data rows that reach position [j]; rows that end before it are not
    counted (stated for a run in which the parse step returns). *)
Theorem count_of_loaded_column :
  forall (F : Float64) (sp : spacy.module) (api : sheets.client)
         (spreadsheet_id range_name prompt : string)
         (r : sheets.response) (header : list string) (data : list (list string))
         (j : nat) (label : string),
    api spreadsheet_id range_name = Ok r ->
    default [] (sheets.values r) = header :: data ->
    NoDup header ->
    (data = [] \/ List.length header = width data) ->
    header !! j = Some label ->
    parse sp prompt = Ok tt ->
    first_match (lower prompt) = Some Count ->
    exists df,
      get_google_sheet api spreadsheet_id range_name = ([], Some df)
      /\ extract_info sp df label prompt
         = "The count of values in column '" ++ label ++ "' is "
             ++ str_of_nat
                  (List.length
                     (filter (fun row : list string => j < List.length row) data))
             ++ ".".
Proof.
  intros F sp api spreadsheet_id range_name prompt r header data j label
         Hr Hv Hnd Hw Hj Hp Hst.
  pose proof (grid_loads _ _ _ _ _ _ Hr Hv Hw) as Hg.
  pose proof (frame_lookup data _ _ _ Hnd Hj) as Hcol.
  exists (frame data header). split; [exact Hg|].
  rewrite (extract_info_evaluate _ _ _ _ Hp). unfold evaluate. rewrite Hst.
  unfold compute, getitem. unfold Series, cell in *. rewrite Hcol.
  cbn [mbind result_bind Py.bind value_text try_except].
  now rewrite count_of_cells.
Qed.

Lemma count_of_loaded_column_witness :
  serving (holding [["Name"; "Age"]; ["Ann"; "31"]; ["Bob"]; ["Cy"; "27"]])
    "sheet-id" "Sheet1!A1:B4"
  = Ok (holding [["Name"; "Age"]; ["Ann"; "31"]; ["Bob"]; ["Cy"; "27"]])
  /\ NoDup ["Name"; "Age"]
  /\ List.length ["Name"; "Age"] = width [["Ann"; "31"]; ["Bob"]; ["Cy"; "27"]]
  /\ ["Name"; "Age"] !! 1 = Some "Age"
  /\ parse spacy.installed "How many? Count them" = Ok tt
  /\ first_match (lower "How many? Count them") = Some Count
  /\ exists df,
       get_google_sheet
         (serving (holding [["Name"; "Age"]; ["Ann"; "31"]; ["Bob"]; ["Cy"; "27"]]))
         "sheet-id" "Sheet1!A1:B4" = ([], Some df)
       /\ extract_info (F := binary64) spacy.installed df "Age" "How many? Count them"
          = "The count of values in column 'Age' is 2.".
Proof.
  assert (Hnd : NoDup ["Name"; "Age"]) by (apply (bool_decide_unpack _); vm_compute; exact I).
  split; [reflexivity|]. split; [exact Hnd|]. split; [reflexivity|]. split; [reflexivity|].
  split; [reflexivity|]. split; [reflexivity|].
  exact (count_of_loaded_column binary64 spacy.installed
           (serving (holding [["Name"; "Age"]; ["Ann"; "31"]; ["Bob"]; ["Cy"; "27"]]))
           "sheet-id" "Sheet1!A1:B4" "How many? Count them" _ ["Name"; "Age"]
           [["Ann"; "31"]; ["Bob"]; ["Cy"; "27"]] 1 "Age"
           eq_refl eq_refl Hnd (or_intror eq_refl) eq_refl eq_refl eq_refl).
Defined.

(** ** The load button *)

Lemma no_table_one_message (api : sheets.client) (spreadsheet_id range_name : string) :
  (get_google_sheet api spreadsheet_id range_name).2 = None ->
  exists msg, get_google_sheet api spreadsheet_id range_name = ([msg], None).
Proof.
  destruct (api spreadsheet_id range_name) as [r|e] eqn:Hr.
  - destruct (default [] (sheets.values r)) as [|header data] eqn:Hv.
    + intros _. exists "No data found.". unfold get_google_sheet. rewrite Hr.
      cbn [mbind result_bind Py.bind]. now rewrite Hv.
    + rewrite (get_google_sheet_grid _ _ _ _ _ _ Hr Hv).
      destruct (DataFrame_new data header) as [df|e]; [discriminate|].
      intros _. now eexists.
  - intros _. rewrite (connection_failure _ _ _ _ Hr). now eexists.
Qed.

Lemma truthy_false (s : string) : truthy s = false <-> s = "".
Proof.
  unfold truthy. rewrite negb_false_iff. apply String.eqb_eq.
Qed.

(** A load that returns no table (an empty grid, a failed request, rows
    that do not fit the header) puts two errors on the page, the loader's
    own and then "No data found. Please check the Google Sheets ID and
    range.", and leaves the table of the session as it was: a failed
    request is reported as missing data too, and a table loaded earlier
    stays in use. *)
Theorem failed_load_keeps_table :
  forall (api : sheets.client) (spreadsheet_id range_name : string)
         (google_df : option DataFrame),
    truthy spreadsheet_id = true ->
    truthy range_name = true ->
    (get_google_sheet api spreadsheet_id range_name).2 = None ->
    (exists msg,
       get_google_sheet api spreadsheet_id range_name = ([msg], None)
       /\ load_clicked api spreadsheet_id range_name google_df
          = ([streamlit.error msg;
              streamlit.error "No data found. Please check the Google Sheets ID and range."],
             google_df))
    /\ (forall e, api spreadsheet_id range_name = Raise e ->
          load_clicked api spreadsheet_id range_name google_df
          = ([streamlit.error ("Error connecting to Google Sheets: " ++ str_of_exception e);
              streamlit.error "No data found. Please check the Google Sheets ID and range."],
             google_df)).
Proof.
  intros api spreadsheet_id range_name google_df Hid Hrange Hnone.
  pose proof (no_table_one_message _ _ _ Hnone) as Hmsg.
  split.
  - destruct Hmsg as [msg Hg]. exists msg. split; [exact Hg|].
    unfold load_clicked. now rewrite Hid, Hrange, Hg.
  - intros e He. unfold load_clicked. rewrite Hid, Hrange.
    now rewrite (connection_failure _ _ _ _ He).
Qed.

Lemma failed_load_keeps_table_witness :
  truthy "sheet-id" = true
  /\ truthy "Sheet1!A1:B9" = true
  /\ (get_google_sheet (serving blank) "sheet-id" "Sheet1!A1:B9").2 = None
  /\ load_clicked (serving blank) "sheet-id" "Sheet1!A1:B9" (Some ages)
     = ([streamlit.error "No data found.";
         streamlit.error "No data found. Please check the Google Sheets ID and range."],
        Some ages).
Proof.
  split; [reflexivity|]. split; [reflexivity|]. split; [reflexivity|].
  destruct (proj1 (failed_load_keeps_table (serving blank) "sheet-id" "Sheet1!A1:B9"
                     (Some ages) eq_refl eq_refl eq_refl)) as (msg & Hg & Hl).
  injection Hg as <-. exact Hl.
Defined.

(** With either input left empty no request is made: whatever the client
    would answer, the page shows "Please provide both Google Sheets ID and
    range." and the session keeps its table. *)
Theorem blank_input_makes_no_request :
  forall (api : sheets.client) (spreadsheet_id range_name : string)
         (google_df : option DataFrame),
    spreadsheet_id = "" \/ range_name = "" ->
    load_clicked api spreadsheet_id range_name google_df
    = ([streamlit.error "Please provide both Google Sheets ID and range."], google_df).
Proof.
  intros api spreadsheet_id range_name google_df Hblank. unfold load_clicked.
  destruct Hblank as [H|H]; apply truthy_false in H; rewrite H;
    [reflexivity|now rewrite andb_false_r].
Qed.

Lemma blank_input_makes_no_request_witness :
  ("sheet-id" = "" \/ "" = "")
  /\ load_clicked (serving (holding [["Name"]; ["Ann"]])) "sheet-id" "" (Some ages)
     = ([streamlit.error "Please provide both Google Sheets ID and range."], Some ages).
Proof.
  split; [now right|].
  exact (blank_input_makes_no_request (serving (holding [["Name"]; ["Ann"]]))
           "sheet-id" "" (Some ages) (or_intror eq_refl)).
Defined.

(** ** What a result depends on *)

(** The result depends on the table through the selected column only: two
    tables that agree on it get the same answer to every prompt. *)
Theorem other_columns_ignored :
  forall (F : Float64) (sp : spacy.module) (df1 df2 : DataFrame)
         (column prompt : string),
    df1 !! column = df2 !! column ->
    extract_info sp df1 column prompt = extract_info sp df2 column prompt.
Proof.
  intros F sp df1 df2 column prompt Hcol. unfold extract_info.
  destruct (parse sp prompt) as [doc|e]; [|reflexivity].
  cbn [mbind result_bind Py.bind]. rewrite !answer_dispatch.
  destruct (first_match (lower prompt)) as [st|]; [|reflexivity].
  unfold compute, getitem. now rewrite Hcol.
Qed.

Lemma other_columns_ignored_witness :
  ages !! "Age" = staff !! "Age"
  /\ extract_info (F := binary64) spacy.installed ages "Age" "highest of all"
     = extract_info (F := binary64) spacy.installed staff "Age" "highest of all".
Proof.
  assert (Hcol : ages !! "Age" = staff !! "Age") by reflexivity.
  split; [exact Hcol|].
  exact (other_columns_ignored binary64 spacy.installed ages staff
           "Age" "highest of all" Hcol).
Defined.

(** The result depends on the prompt through the family it selects only:
    two prompts that resolve alike get the same answer, so a column named
    in the prompt plays no part (stated for runs in which the parse step
    returns on both). *)
Theorem prompt_matters_by_family :
  forall (F : Float64) (sp : spacy.module) (df : DataFrame) (column p q : string),
    parse sp p = Ok tt ->
    parse sp q = Ok tt ->
    first_match (lower p) = first_match (lower q) ->
    extract_info sp df column p = extract_info sp df column q.
Proof.
  intros F sp df column p q Hp Hq Hf.
  rewrite (extract_info_evaluate _ _ _ _ Hp), (extract_info_evaluate _ _ _ _ Hq).
  unfold evaluate. now rewrite Hf.
Qed.

Lemma prompt_matters_by_family_witness :
  parse spacy.installed "lowest Age" = Ok tt
  /\ parse spacy.installed "What is the minimum of column Name?" = Ok tt
  /\ first_match (lower "lowest Age")
     = first_match (lower "What is the minimum of column Name?")
  /\ extract_info (F := binary64) spacy.installed ages "Age" "lowest Age"
     = extract_info (F := binary64) spacy.installed ages "Age"
         "What is the minimum of column Name?".
Proof.
  split; [reflexivity|]. split; [reflexivity|]. split; [reflexivity|].
  exact (prompt_matters_by_family binary64 spacy.installed ages "Age" "lowest Age"
           "What is the minimum of column Name?" eq_refl eq_refl eq_refl).
Defined.

(** The guidance text is returned for the unmatched prompts and for no
    other: a prompt with a trigger in it gets a statistic or an error
    (stated for a run in which the parse step returns). *)
Theorem guidance_iff_unmatched :
  forall (F : Float64) (sp : spacy.module) (df : DataFrame) (column prompt : string),
    parse sp prompt = Ok tt ->
    extract_info sp df column prompt = unsupported
    <-> forall st, matches st (lower prompt) = false.
Proof.
  intros F sp df column prompt Hp.
  rewrite (extract_info_evaluate _ _ _ _ Hp), <- first_match_none_iff.
  unfold evaluate. destruct (first_match (lower prompt)) as [st|]; split;
    try discriminate; try reflexivity.
  intros He. now apply statistic_not_unsupported in He.
Qed.

Lemma guidance_iff_unmatched_witness :
  parse spacy.installed "How old are they?" = Ok tt
  /\ (extract_info (F := binary64) spacy.installed ages "Age" "How old are they?"
      = unsupported
      <-> forall st, matches st (lower "How old are they?") = false).
Proof.
  split; [reflexivity|].
  exact (guidance_iff_unmatched binary64 spacy.installed ages "Age"
           "How old are they?" eq_refl).
Defined.

(** A numeric query on a present column succeeds exactly when every string
    cell converts to float; missing cells never make it fail.  When a
    string cell does not convert, the result is the conversion error of
    such a cell (stated for a run in which the parse step returns). *)
Theorem numeric_query_succeeds_iff :
  forall (F : Float64) (sp : spacy.module) (df : DataFrame) (column prompt : string)
         (st : statistic) (s : Series),
    parse sp prompt = Ok tt ->
    first_match (lower prompt) = Some st ->
    st <> Count ->
    df !! column = Some s ->
    ((exists value, extract_info sp df column prompt = message st column value)
     <-> forall t, In (Some t) s -> float_of_str t <> None)
    /\ ((exists t, In (Some t) s /\ float_of_str t = None) ->
        exists t, In (Some t) s /\ float_of_str t = None
                  /\ extract_info sp df column prompt
                     = "Error: could not convert string to float: " ++ repr t).
Proof.
  intros F sp df column prompt st s Hp Hst Hnc Hcol.
  assert (Hbad : (exists t, In (Some t) s /\ float_of_str t = None) ->
                 exists t, In (Some t) s /\ float_of_str t = None
                           /\ extract_info sp df column prompt
                              = "Error: could not convert string to float: " ++ repr t).
  { intros Hex. destruct (astype_float_raises s Hex) as (t & Hin & Ht & Hraise).
    exists t. repeat split; [assumption..|].
    rewrite (extract_info_evaluate _ _ _ _ Hp). unfold evaluate. rewrite Hst.
    unfold compute, getitem. rewrite Hcol.
    unfold mbind, result_bind, Py.bind.
    destruct st; try congruence; unfold value_text, mbind, result_bind, Py.bind;
      now rewrite Hraise. }
  split; [|exact Hbad]. split.
  - intros [value Hv] t Hin Ht.
    destruct Hbad as (t' & _ & _ & He); [now exists t|].
    rewrite He in Hv. destruct st; discriminate Hv.
  - intros Hall.
    destruct (statistic_of_column sp df column prompt st s Hp Hst Hcol Hall)
      as (xs & _ & He).
    eexists. exact He.
Qed.

Lemma numeric_query_succeeds_iff_witness :
  parse spacy.installed "What is the total?" = Ok tt
  /\ first_match (lower "What is the total?") = Some Sum
  /\ Sum <> Count
  /\ names !! "Name" = Some [Some "abc"; None; Some "x y"]
  /\ (exists t, In (Some t) [Some "abc"; None; Some "x y"] /\ Binary64.of_str t = None)
  /\ exists t, In (Some t) [Some "abc"; None; Some "x y"] /\ Binary64.of_str t = None
               /\ extract_info (F := binary64) spacy.installed names "Name"
                    "What is the total?"
                  = "Error: could not convert string to float: " ++ repr t.
Proof.
  assert (Hbad : exists t, In (Some t) [Some "abc"; None; Some "x y"]
                           /\ Binary64.of_str t = None)
    by (exists "abc"; split; [now left|reflexivity]).
  split; [reflexivity|]. split; [reflexivity|]. split; [discriminate|].
  split; [reflexivity|]. split; [exact Hbad|].
  exact (proj2 (numeric_query_succeeds_iff binary64 spacy.installed names "Name"
                  "What is the total?" Sum _ eq_refl eq_refl ltac:(discriminate) eq_refl)
           Hbad).
Defined.

(** No branch of the cascade is dead: each trigger, taken alone as the
    prompt, selects its own family, so no trigger holds a trigger of an
    earlier family (stated for a run in which the parse step returns). *)
Theorem every_trigger_reaches_its_family :
  forall (F : Float64) (sp : spacy.module) (df : DataFrame) (column : string)
         (st : statistic) (k : string),
    In k (keywords st) ->
    parse sp k = Ok tt ->
    first_match (lower k) = Some st
    /\ extract_info sp df column k = try_except (compute st df column) handler.
Proof.
  intros F sp df column st k Hk Hp.
  assert (Hf : first_match (lower k) = Some st).
  { destruct st; simpl in Hk;
      repeat (destruct Hk as [<-|Hk]; [vm_compute; reflexivity|]); destruct Hk. }
  split; [exact Hf|].
  rewrite (extract_info_evaluate _ _ _ _ Hp). unfold evaluate. now rewrite Hf.
Qed.

Lemma every_trigger_reaches_its_family_witness :
  In "std dev" (keywords StdDev)
  /\ parse spacy.installed "std dev" = Ok tt
  /\ first_match (lower "std dev") = Some StdDev
  /\ extract_info (F := binary64) spacy.installed ages "Age" "std dev"
     = "The standard deviation of values in column 'Age' is 10.0.".
Proof.
  assert (Hk : In "std dev" (keywords StdDev)) by (simpl; tauto).
  split; [exact Hk|]. split; [reflexivity|].
  destruct (every_trigger_reaches_its_family binary64 spacy.installed ages "Age"
              StdDev "std dev" Hk eq_refl) as [Hf He].
  split; [exact Hf|]. rewrite He. vm_compute. reflexivity.
Defined.

(** ** The exported file *)

Lemma string_length_app (s t : string) :
  String.length (s ++ t) = String.length s + String.length t.
Proof. induction s as [|c s IH]; simpl; [reflexivity|]. now rewrite IH. Qed.

Lemma string_app_inv_tail (s1 s2 t : string) : s1 ++ t = s2 ++ t -> s1 = s2.
Proof.
  revert s2. induction s1 as [|c s1 IH]; intros [|d s2] Heq.
  - reflexivity.
  - apply (f_equal String.length) in Heq.
    change (String.length t = S (String.length (s2 ++ t))) in Heq.
    rewrite string_length_app in Heq. lia.
  - apply (f_equal String.length) in Heq.
    change (S (String.length (s1 ++ t)) = String.length t) in Heq.
    rewrite string_length_app in Heq. lia.
  - change (String c (s1 ++ t) = String d (s2 ++ t)) in Heq.
    injection Heq as -> Heq. f_equal. now apply IH.
Qed.

Lemma double_quotes_inj (a b : string) : double_quotes a = double_quotes b -> a = b.
Proof.
  revert b. induction a as [|c a IH]; intros [|d b]; simpl.
  - reflexivity.
  - destruct (Ascii.eqb d quote_char); discriminate.
  - destruct (Ascii.eqb c quote_char); discriminate.
  - destruct (Ascii.eqb c quote_char) eqn:Hc, (Ascii.eqb d quote_char) eqn:Hd.
    + apply Ascii.eqb_eq in Hc, Hd. subst c d. intros [= Heq]. f_equal. now apply IH.
    + intros [= <- _]. now rewrite Ascii.eqb_refl in Hd.
    + intros [= -> _]. now rewrite Ascii.eqb_refl in Hc.
    + intros [= -> Heq]. f_equal. now apply IH.
Qed.

Lemma quoted_is_special (linesep s : string) :
  any_special linesep (String quote_char s) = true.
Proof.
  cbn [any_special]. unfold special.
  now rewrite (Ascii.eqb_refl quote_char), orb_true_r.
Qed.

Lemma csv_field_inj (linesep a b : string) :
  csv_field linesep a = csv_field linesep b -> a = b.
Proof.
  unfold csv_field.
  destruct (String.eqb a "" || any_special linesep a) eqn:Ha,
           (String.eqb b "" || any_special linesep b) eqn:Hb.
  - intros [= Heq]. apply string_app_inv_tail in Heq. now apply double_quotes_inj.
  - intros <-. exfalso. apply orb_false_iff in Hb as [_ Hb].
    now rewrite quoted_is_special in Hb.
  - intros ->. exfalso. apply orb_false_iff in Ha as [_ Ha].
    now rewrite quoted_is_special in Ha.
  - easy.
Qed.

(** The export loses nothing: two results that give the same file are the
    same result, whatever the commas, quotes and line breaks in them and
    whatever the line terminator of the platform. *)
Theorem export_is_injective :
  forall (linesep a b : string), to_csv linesep a = to_csv linesep b -> a = b.
Proof.
  intros linesep a b Heq. unfold to_csv in Heq.
  apply (inj (String.append "Extracted Info")) in Heq.
  apply (inj (String.append linesep)) in Heq.
  apply string_app_inv_tail in Heq. now apply csv_field_inj in Heq.
Qed.

Lemma export_is_injective_witness :
  to_csv LF unsupported
  = to_csv LF "Query not supported. Please rephrase your query to include 'minimum', 'maximum', 'average', 'sum', 'count', 'median', 'standard deviation', or 'variance'."
  /\ unsupported
     = "Query not supported. Please rephrase your query to include 'minimum', 'maximum', 'average', 'sum', 'count', 'median', 'standard deviation', or 'variance'.".
Proof.
  split; [reflexivity|].
  exact (export_is_injective LF unsupported _ eq_refl).
Defined.

(** ** When the two signals are raised *)

(** "No data found." is reported for an answer without rows and for no
    other: not for a header-only grid, not for rows that do not fit the
    header, not for a failed request. *)
Theorem no_data_iff_no_rows :
  forall (api : sheets.client) (spreadsheet_id range_name : string),
    get_google_sheet api spreadsheet_id range_name = no_data
    <-> exists r, api spreadsheet_id range_name = Ok r
                  /\ default [] (sheets.values r) = [].
Proof.
  intros api spreadsheet_id range_name. split.
  - destruct (api spreadsheet_id range_name) as [r|e] eqn:Hr.
    + destruct (default [] (sheets.values r)) as [|header data] eqn:Hv; [now exists r|].
      rewrite (get_google_sheet_grid _ _ _ _ _ _ Hr Hv).
      destruct (DataFrame_new data header); discriminate.
    + unfold get_google_sheet. rewrite Hr. discriminate.
  - intros (r & Hr & Hv). unfold get_google_sheet. rewrite Hr.
    cbn [mbind result_bind Py.bind]. now rewrite Hv.
Qed.

Lemma astype_float_error {F : Float64} (s : Series) (e : Exception) :
  astype_float s = Raise e ->
  exists t, e = ValueError ("could not convert string to float: " ++ repr t).
Proof.
  induction s as [|c s IH]; [discriminate|].
  cbn [astype_float]. unfold mbind, result_bind, Py.bind.
  destruct c as [t|]; cbn [cell_to_float].
  - destruct (float_of_str t).
    + destruct (astype_float s); [discriminate|]. intros [= <-]. now apply IH.
    + intros [= <-]. now exists t.
  - destruct (astype_float s); [discriminate|]. intros [= <-]. now apply IH.
Qed.

Lemma repr_not_conversion_error (column t : string) :
  repr column <> "could not convert string to float: " ++ repr t.
Proof.
  unfold repr at 1.
  destruct (mem_char "'" column && negb (mem_char "034" column)); discriminate.
Qed.

(** The lookup error "Error: " followed by the quoted column name is
    returned exactly when the prompt selects a family and the table has no
    such column: an unmatched prompt never reveals a wrong column name
    (stated for a run in which the parse step returns). *)
Theorem lookup_error_iff :
  forall (F : Float64) (sp : spacy.module) (df : DataFrame) (column prompt : string),
    parse sp prompt = Ok tt ->
    extract_info sp df column prompt = "Error: " ++ repr column
    <-> (exists st, first_match (lower prompt) = Some st) /\ df !! column = None.
Proof.
  intros F sp df column prompt Hp.
  rewrite (extract_info_evaluate _ _ _ _ Hp). unfold evaluate.
  destruct (first_match (lower prompt)) as [st|]; cycle 1.
  { split; [discriminate|]. now intros [[st [=]] _]. }
  unfold compute, getitem.
  destruct (df !! column) as [s|] eqn:Hcol; cycle 1.
  { split; [now eauto|reflexivity]. }
  split; [|now intros [_ [=]]]. intros He. exfalso. revert He.
  unfold mbind, result_bind, Py.bind.
  destruct (value_text st s) as [v|e] eqn:Hv.
  - destruct st; discriminate.
  - assert (He : exists t,
               e = ValueError ("could not convert string to float: " ++ repr t)).
    { destruct st; unfold value_text, mbind, result_bind, Py.bind in Hv;
        try discriminate;
        (destruct (astype_float s) as [xs|e'] eqn:Hx; [discriminate|];
         injection Hv as <-; now apply (astype_float_error s)). }
    destruct He as [t ->]. cbn [try_except handler str_of_exception].
    unfold handler. cbn [str_of_exception].
    intros Heq. apply (inj (String.append "Error: ")) in Heq.
    symmetry in Heq. now apply repr_not_conversion_error in Heq.
Qed.

Lemma lookup_error_iff_witness :
  parse spacy.installed "Give me the median" = Ok tt
  /\ (extract_info (F := binary64) spacy.installed ages "Height" "Give me the median"
      = "Error: 'Height'"
      <-> (exists st, first_match (lower "Give me the median") = Some st)
          /\ ages !! "Height" = None).
Proof.
  split; [reflexivity|].
  exact (lookup_error_iff binary64 spacy.installed ages "Height"
           "Give me the median" eq_refl).
Defined.
